(** * Glue trigger declarations: the [Trigger] construct family

    A shallow embedding of [packages/@aws-cdk/aws-glue/lib/trigger.ts] and of
    the other revisions of that file kept with it (the draft that still
    carries the event/metric layer, and the revision with the plain
    [TriggerType] enumeration and [ScheduledTrigger]).

    Constructs are JavaScript objects with identity, registered in a scope
    tree and mutated after registration.  They are modelled as a heap (a list
    of objects, the address of an object being its index) threaded through a
    small state-and-exception monad; a reference to a construct is its
    address. *)

From stdpp Require Import base option list strings gmap fin_maps.

(** ** Deferred values *)

Module Deferred.

(** Modelled from the spec: a deferred value is a string some of whose
    pieces are only known at deploy time: the pseudo parameters of the
    stack (partition, region, account) and references to declared
    resources.  The templating engine itself is not part of the sources. *)
Inductive Fragment : Type :=
| Lit (s : string)
| Ref (logicalPath : list string)
| AwsPartition
| AwsRegion
| AwsAccountId.

#[global] Instance Fragment_eq_dec : EqDecision Fragment.
Proof. solve_decision. Defined.

Definition t : Type := list Fragment.

(** What the deployment engine knows when it resolves deferred values. *)
Record Environment : Type := {
  partition : string;
  region : string;
  account : string;
  physicalName : list string -> string
}.

Definition resolveFragment (env : Environment) (f : Fragment) : string :=
  match f with
  | Lit s => s
  | Ref p => physicalName env p
  | AwsPartition => partition env
  | AwsRegion => region env
  | AwsAccountId => account env
  end.

Fixpoint resolve (env : Environment) (d : t) : string :=
  match d with
  | [] => ""
  | f :: d' => resolveFragment env f +:+ resolve env d'
  end.

(** The [Fn::Join] rendering of a deferred string: adjacent literals are
    merged, the deferred pieces are kept as they are. *)
Fixpoint fnJoin (d : t) : t :=
  match d with
  | [] => []
  | Lit s :: d' =>
      match fnJoin d' with
      | Lit s' :: r => Lit (s +:+ s') :: r
      | r => Lit s :: r
      end
  | f :: d' => f :: fnJoin d'
  end.

Record ArnComponents : Type := {
  service : string;
  resource : string;
  resourceName : option t
}.

(** Modelled from the spec: [Stack.formatArn] is not part of the sources;
    the spec gives the template
    [arn:{partition}:glue:{region}:{account}:trigger/{name}], that is
    [arn:{partition}:{service}:{region}:{account}:{resource}/{resourceName}]
    for the components the callers pass, with the partition, the region
    and the account of the enclosing stack left deferred. *)
Definition formatArn (c : ArnComponents) : t :=
  [Lit "arn:"; AwsPartition; Lit ":"; Lit (service c); Lit ":"; AwsRegion;
   Lit ":"; AwsAccountId; Lit ":"; Lit (resource c)]
  ++ match resourceName c with
     | Some n => Lit "/" :: n
     | None => []
     end.

End Deferred.

(** ** Collaborator value types *)

(** Opaque JavaScript values ([any]): actions and predicates are handed to
    the resource record without being inspected. *)
#[warnings="-register-all"]
Inductive Any : Type :=
| AStr (s : string)
| ABool (b : bool)
| AList (l : list Any)
| AObj (fields : list (string * Any)).

(** Modelled from the spec: the identity and access collaborator,
    [createRole(trustedService, policies)]; a role is described by the
    principal that may assume it and by its managed policies. *)
Module Iam.

Inductive Principal : Type :=
| ServicePrincipal (service : string).

Inductive ManagedPolicy : Type :=
| fromAwsManagedPolicyName (managedPolicyName : string).

Record RoleProps : Type := {
  assumedBy : Principal;
  managedPolicies : list ManagedPolicy
}.

End Iam.

(** Modelled from the spec: the event collaborator, [createRule(pattern)]
    and [RuleHandle.addEventPattern(extra)]; schedules, patterns, rule
    options and rules carry the fields that the trigger code reads or
    writes. *)
Module Events.

(** [events.Schedule]: only its [expressionString] is read. *)
Record Schedule : Type := { expressionString : string }.

Record EventPattern : Type := {
  source : list string;
  detailType : list string;
  detail : gmap string (list Deferred.t)
}.

Definition emptyPattern : EventPattern :=
  {| source := []; detailType := []; detail := ∅ |}.

(** A key of an options object: it may be missing, or be an own key of the
    object whose value is given or is [undefined].  Reading the key gives
    [undefined] in the first case as in the last; an object spread copies
    the own keys, the [undefined] ones too. *)
Inductive Key (A : Type) : Type :=
| Missing
| Own (v : option A).
Arguments Missing {A}.
Arguments Own {A} v.

Definition read {A : Type} (k : Key A) : option A :=
  match k with
  | Missing => None
  | Own v => v
  end.

(** [events.OnEventOptions].  The description is the one key that the
    trigger code gives a default to by an object spread, so it records
    whether the key is an own key; the other keys are only read. *)
Record OnEventOptions : Type := {
  description : Key Deferred.t;
  eventPattern : option EventPattern;
  ruleName : option string;
  target : option string
}.

(** [{}], the default of the [options] parameters. *)
Definition noOptions : OnEventOptions :=
  {| description := Missing; eventPattern := None; ruleName := None;
     target := None |}.

Record Rule : Type := {
  ruleDescription : option Deferred.t;
  rulePhysicalName : option string;
  rulePattern : EventPattern;
  ruleTargets : list string
}.

(** Values of one field of a pattern are accumulated without repeats. *)
Definition mergeValues {A} `{EqDecision A} (dest src : list A) : list A :=
  foldl (fun acc v => if decide (v ∈ acc) then acc else acc ++ [v]) dest src.

(** Modelled from the spec: [RuleHandle.addEventPattern(extra)] merges the
    extra pattern into the pattern of the rule, field by field. *)
Definition mergeEventPattern (dest src : EventPattern) : EventPattern :=
  {| source := mergeValues (source dest) (source src);
     detailType := mergeValues (detailType dest) (detailType src);
     detail := union_with (fun d s => Some (mergeValues d s))
                 (detail dest) (detail src) |}.

Definition addEventPattern (p : EventPattern) (r : Rule) : Rule :=
  {| ruleDescription := ruleDescription r;
     rulePhysicalName := rulePhysicalName r;
     rulePattern := mergeEventPattern (rulePattern r) p;
     ruleTargets := ruleTargets r |}.

(** [rule.addTarget(target)] does nothing for an absent target. *)
Definition addTarget (tg : option string) (r : Rule) : Rule :=
  match tg with
  | None => r
  | Some x =>
      {| ruleDescription := ruleDescription r;
         rulePhysicalName := rulePhysicalName r;
         rulePattern := rulePattern r;
         ruleTargets := ruleTargets r ++ [x] |}
  end.

(** The state of a rule right after [new events.Rule(scope, id, options)]. *)
Definition initialRule (o : OnEventOptions) : Rule :=
  {| ruleDescription := read (description o);
     rulePhysicalName := ruleName o;
     rulePattern := match eventPattern o with
                    | Some p => mergeEventPattern emptyPattern p
                    | None => emptyPattern
                    end;
     ruleTargets := [] |}.

End Events.

(** Modelled from the spec: the record handed to the resource schema emitter
    ([CfnTrigger] of the generated [glue.generated] module, which is not part
    of the sources), field for field:
    [{ name?, description?, type, actions, schedule?, predicate?,
       workflowName?, startOnCreation?, tags? }]. *)
Module CfnTrigger.

Record Props : Type := {
  workflowName : option string;
  tags : option (gmap string string);
  startOnCreation : option bool;
  schedule : option string;
  predicate : option Any;
  name : option string;
  actions : list Any;
  description : option string;
  type : string
}.

End CfnTrigger.

(** ** The scope tree *)

Module Scope.

Inductive Kind : Type :=
| KStack
| KResource (physicalName : option string)
| KRole (props : Iam.RoleProps)
| KCfnTrigger (props : CfnTrigger.Props)
| KRule (rule : Events.Rule).

(** A construct: its path from the root, what it is, and its
    [node.children], which maps the identifier of a child to the child. *)
Record Construct : Type := {
  path : list string;
  kind : Kind;
  children : gmap string nat
}.

Abbreviation Heap := (list Construct).

Inductive Error : Type :=
| DuplicateDeclarationError (scopePath : list string) (id : string)
| TypeError (message : string)
| ReferenceError (message : string)
| DanglingReference (address : nat).

Inductive Outcome (A : Type) : Type :=
| Returns (a : A)
| Throws (e : Error).
Arguments Returns {A} a.
Arguments Throws {A} e.

(** Computations that read and update the heap and may throw.  The heap
    is kept when an exception is thrown: what was registered before the
    exception stays registered. *)
Definition M (A : Type) : Type := Heap -> Outcome A * Heap.

Definition ret {A} (a : A) : M A := fun h => (Returns a, h).

Definition throw {A} (e : Error) : M A := fun h => (Throws e, h).

Definition bind {A B} (m : M A) (k : A -> M B) : M B :=
  fun h =>
    match m h with
    | (Returns a, h') => k a h'
    | (Throws e, h') => (Throws e, h')
    end.

Definition withChild (c : Construct) (id : string) (a : nat) : Construct :=
  {| path := path c; kind := kind c; children := <[id := a]> (children c) |}.

Definition withKind (f : Kind -> Kind) (c : Construct) : Construct :=
  {| path := path c; kind := f (kind c); children := children c |}.

(** Modelled from the spec: [declareChild(parent, id, kind, properties)].
    The new construct is registered among the children of its scope
    under [id] and starts without children; an identifier that a sibling
    already has is refused with [DuplicateDeclarationError]. *)
Definition declareChild (scope : nat) (id : string) (k : Kind) : M nat :=
  fun h =>
    match h !! scope with
    | None => (Throws (DanglingReference scope), h)
    | Some c =>
        match children c !! id with
        | Some _ => (Throws (DuplicateDeclarationError (path c) id), h)
        | None =>
            let a := length h in
            (Returns a,
             <[scope := withChild c id a]> h
             ++ [{| path := path c ++ [id]; kind := k; children := ∅ |}])
        end
    end.

(** Modelled from the spec: [findExistingChild(parent, id)], that is
    [node.tryFindChild(id)]. *)
Definition tryFindChild (scope : nat) (id : string) : M (option nat) :=
  fun h =>
    match h !! scope with
    | None => (Throws (DanglingReference scope), h)
    | Some c => (Returns (children c !! id), h)
    end.

(** A method that mutates the construct at address [a] in place. *)
Definition mutate (a : nat) (f : Kind -> Kind) : M unit :=
  fun h =>
    match h !! a with
    | None => (Throws (DanglingReference a), h)
    | Some c => (Returns tt, <[a := withKind f c]> h)
    end.

Definition pathOf (a : nat) : M (list string) :=
  fun h =>
    match h !! a with
    | None => (Throws (DanglingReference a), h)
    | Some c => (Returns (path c), h)
    end.

Definition onRule (f : Events.Rule -> Events.Rule) (k : Kind) : Kind :=
  match k with
  | KRule r => KRule (f r)
  | _ => k
  end.

Definition isRole (c : Construct) : bool :=
  match kind c with
  | KRole _ => true
  | _ => false
  end.

(** The number of role declarations in the tree. *)
Definition roleCount (h : Heap) : nat := length (List.filter isRole h).

(** The child of [a] registered under [id], with its address. *)
Definition child (h : Heap) (a : nat) (id : string) : option (nat * Construct) :=
  c ← h !! a;
  b ← children c !! id;
  d ← h !! b;
  Some (b, d).

End Scope.

Declare Scope scope_monad_scope.
Delimit Scope scope_monad_scope with scope_monad.
Notation "'let*' x ':=' m 'in' k" :=
  (Scope.bind m (fun x => k))
  (at level 10, x name, m at level 100, k at level 200) : scope_monad_scope.

(** A TypeScript string enumeration: every member has a name and a string
    value, and the value is what reaches templates and event patterns. *)
Class StringEnum (E : Type) : Type := {
  memberName : E -> string;
  value : E -> string
}.

(** ** The constructs of the framework that the trigger declares *)

Module Cdk.
Import Scope.
Local Open Scope scope_monad_scope.

(** Modelled from the spec: [new cdk.Resource(scope, id, { physicalName })]
    registers the construct in its scope,
    [declareChild(parent, id, kind, properties)]. *)
Definition Resource_new (scope : nat) (id : string)
    (physicalName : option string) : M nat :=
  declareChild scope id (KResource physicalName).

(** Modelled from the spec: [new iam.Role(scope, id, props)] is
    [createRole(trustedService, policies)]; it registers "exactly one
    identity-role declaration node" in its scope.  What the role declares
    under itself is not part of the sources and is left out. *)
Definition Role_new (scope : nat) (id : string) (props : Iam.RoleProps) : M nat :=
  declareChild scope id (KRole props).

(** Modelled from the spec: [new CfnTrigger(scope, id, props)] registers
    "exactly one resource-declaration node" with the record it is given. *)
Definition CfnTrigger_new (scope : nat) (id : string)
    (props : CfnTrigger.Props) : M nat :=
  declareChild scope id (KCfnTrigger props).

(** Modelled from the spec: [new events.Rule(scope, id, options)] is
    [createRule(pattern)]; it registers one event-rule node in its scope.
    What the rule declares under itself is not part of the sources and is
    left out. *)
Definition Rule_new (scope : nat) (id : string)
    (options : Events.OnEventOptions) : M nat :=
  declareChild scope id (KRule (Events.initialRule options)).

(** Modelled from the spec: [resource.ref], the deferred reference to the
    declared resource, resolved at deploy time to its physical name. *)
Definition ref (resource : nat) : M Deferred.t :=
  let* p := pathOf resource in
  ret [Deferred.Ref p].

(** Modelled from the spec: [getResourceNameAttribute] is not part of the
    sources; the name it returns is the deferred reference it is given,
    "resolved at deploy time to the physical resource name". *)
Definition getResourceNameAttribute (this : nat) (nameAttr : Deferred.t) : Deferred.t :=
  nameAttr.

(** The record emitted for a trigger: the properties of its [Resource]
    child. *)
Definition emitted (h : Heap) (this : nat) : option CfnTrigger.Props :=
  match child h this "Resource" with
  | Some (_, {| kind := KCfnTrigger p |}) => Some p
  | _ => None
  end.

End Cdk.

(** ** [lib/trigger.ts] *)

Module TriggerTs.
Import Scope Cdk.
Local Open Scope scope_monad_scope.

(** [class TriggerType]: the constructor is private, so the instances are
    the four static members. *)
Inductive TriggerType : Type :=
| Scheduled
| JobEvents
| onDemand
| conditional.

Definition name (t : TriggerType) : string :=
  match t with
  | Scheduled => "SCHEDULED"
  | JobEvents => "JOB_EVENTS"
  | onDemand => "ON_DEMAND"
  | conditional => "CONDITIONAL"
  end.

Inductive TriggerState : Type :=
| CREATED
| ACTIVATED
| DEACTIVATED
| ACTIVATING.

#[global] Instance TriggerState_enum : StringEnum TriggerState := {|
  memberName s :=
    match s with
    | CREATED => "CREATED"
    | ACTIVATED => "ACTIVATED"
    | DEACTIVATED => "DEACTIVATED"
    | ACTIVATING => "ACTIVATING"
    end;
  value s :=
    match s with
    | CREATED => "CREATED"
    | ACTIVATED => " ACTIVATED"
    | DEACTIVATED => "DEACTIVATED"
    | ACTIVATING => "ACTIVATING"
    end
|}.

(** [interface TriggerProps].  Types are erased at run time and the tests
    of the package leave out fields that the interface declares without
    [?], so every field that may be missing from the object is an option. *)
Module TriggerProps.
Record t : Type := {
  actions : list Any;
  description : option string;
  predicate : option Any;
  schedule : option Events.Schedule;
  startOnCreation : option bool;
  type : TriggerType;
  workflowName : option string;
  triggerName : option string;
  tags : option (gmap string string);
  role : option nat
}.
End TriggerProps.

(** The attributes of a [Trigger]; [node] is the construct itself. *)
Record Trigger : Type := {
  node : nat;
  triggerArn : Deferred.t;
  triggerName : Deferred.t;
  role : nat;
  grantPrincipal : nat
}.

Definition triggeerArn (scope : nat) (jobName : Deferred.t) : Deferred.t :=
  Deferred.formatArn
    {| Deferred.service := "glue";
       Deferred.resource := "trigger";
       Deferred.resourceName := Some jobName |}.

Definition glueServiceRole : Iam.RoleProps :=
  {| Iam.assumedBy := Iam.ServicePrincipal "glue.amazonaws.com";
     Iam.managedPolicies :=
       [Iam.fromAwsManagedPolicyName "service-role/AWSGlueServiceRole"] |}.

(** [props.schedule.expressionString]: reading a member of [undefined]
    throws. *)
Definition expressionStringOf (schedule : option Events.Schedule) : M string :=
  match schedule with
  | Some s => ret (Events.expressionString s)
  | None =>
      throw (TypeError
        "Cannot read properties of undefined (reading 'expressionString')")
  end.

(** The object literal passed to [new CfnTrigger(this, 'Resource', ...)],
    once [props.schedule.expressionString] has been read. *)
Definition resourceRecord (props : TriggerProps.t) (schedule : string)
    : CfnTrigger.Props :=
  {| CfnTrigger.workflowName := TriggerProps.workflowName props;
     CfnTrigger.tags := TriggerProps.tags props;
     CfnTrigger.startOnCreation := TriggerProps.startOnCreation props;
     CfnTrigger.schedule := Some schedule;
     CfnTrigger.predicate := TriggerProps.predicate props;
     CfnTrigger.name := TriggerProps.triggerName props;
     CfnTrigger.actions := TriggerProps.actions props;
     CfnTrigger.description := TriggerProps.description props;
     CfnTrigger.type := name (TriggerProps.type props) |}.

(** [constructor(scope, id, props)]. *)
Definition Trigger_new (scope : nat) (id : string) (props : TriggerProps.t)
    : M Trigger :=
  let* this := Resource_new scope id (TriggerProps.triggerName props) in
  let* role :=
    match TriggerProps.role props with
    | Some r => ret r
    | None => Role_new this "ServiceRole" glueServiceRole
    end in
  let grantPrincipal := role in
  let* schedule := expressionStringOf (TriggerProps.schedule props) in
  let* triggerResource :=
    CfnTrigger_new this "Resource" (resourceRecord props schedule) in
  let* nameAttr := ref triggerResource in
  let resourceName := getResourceNameAttribute this nameAttr in
  ret {| node := this;
         triggerArn := triggeerArn this resourceName;
         triggerName := resourceName;
         role := role;
         grantPrincipal := grantPrincipal |}.

End TriggerTs.

(** ** The revision with the event and metric layer

    An earlier revision of [lib/trigger.ts] whose [TriggerBase] still has
    the event rules and metrics of a job; its [Trigger] constructor and its
    [triggeerArn] are those of [TriggerTs]. *)

Module TriggerEvents.
Import Scope Cdk.
Local Open Scope scope_monad_scope.

Inductive triggerState : Type :=
| SUCCEEDED
| FAILED
| TIMEOUT
| STARTING
| RUNNING
| STOPPING
| STOPPED.

#[global] Instance triggerState_enum : StringEnum triggerState := {|
  memberName s :=
    match s with
    | SUCCEEDED => "SUCCEEDED"
    | FAILED => "FAILED"
    | TIMEOUT => "TIMEOUT"
    | STARTING => "STARTING"
    | RUNNING => "RUNNING"
    | STOPPING => "STOPPING"
    | STOPPED => "STOPPED"
    end;
  value s :=
    match s with
    | SUCCEEDED => "SUCCEEDED"
    | FAILED => "FAILED"
    | TIMEOUT => "TIMEOUT"
    | STARTING => "STARTING"
    | RUNNING => "RUNNING"
    | STOPPING => "STOPPING"
    | STOPPED => "STOPPED"
    end
|}.

(** [abstract class TriggerBase]: the methods of one construct [this].
    [jobName] is the abstract member the methods read; a subclass that does
    not define it (the [Trigger] of this revision defines [triggerName]
    instead) leaves it [undefined].  [Metric] and [MetricOptions] are the
    types of the metrics collaborator. *)
Section TriggerBase.
Variable this : nat.
Variable jobName : Deferred.t.
Variables Metric MetricOptions : Type.

Definition jobEvents : Events.EventPattern :=
  {| Events.source := ["aws.glue"];
     Events.detailType := ["Glue Job State Change"; "Glue Job Run Status"];
     Events.detail := {["jobName" := [jobName]]} |}.

Definition onEvent (id : string) (options : Events.OnEventOptions) : M nat :=
  let* rule := Rule_new this id options in
  let* _ := mutate rule (onRule (Events.addTarget (Events.target options))) in
  let* _ := mutate rule (onRule (Events.addEventPattern jobEvents)) in
  ret rule.

(** [`Rule triggered when Glue job ${this.jobName} is in ${jobState} state`] *)
Definition stateDescription (jobState : string) : Deferred.t :=
  [Deferred.Lit "Rule triggered when Glue job "] ++ jobName
  ++ [Deferred.Lit " is in "; Deferred.Lit jobState; Deferred.Lit " state"].

(** [{ description: ..., ...options }]: an own [description] of the
    options, be it [undefined], replaces the default. *)
Definition withDescription (d : Deferred.t) (options : Events.OnEventOptions)
    : Events.OnEventOptions :=
  {| Events.description :=
       match Events.description options with
       | Events.Own v => Events.Own v
       | Events.Missing => Events.Own (Some d)
       end;
     Events.eventPattern := Events.eventPattern options;
     Events.ruleName := Events.ruleName options;
     Events.target := Events.target options |}.

Definition statePattern (jobState : string) : Events.EventPattern :=
  {| Events.source := [];
     Events.detailType := [];
     Events.detail := {["state" := [[Deferred.Lit jobState]]]} |}.

(** The state is a member of a string enumeration; its value is what is
    interpolated and matched. *)
Definition onStateChange (id : string) (jobState : triggerState)
    (options : Events.OnEventOptions) : M nat :=
  let* rule :=
    onEvent id (withDescription (stateDescription (value jobState)) options) in
  let* _ :=
    mutate rule (onRule (Events.addEventPattern (statePattern (value jobState)))) in
  ret rule.

Definition onSuccess (id : string) (options : Events.OnEventOptions) : M nat :=
  onStateChange id SUCCEEDED options.

Definition onFailure (id : string) (options : Events.OnEventOptions) : M nat :=
  onStateChange id FAILED options.

Definition onTimeout (id : string) (options : Events.OnEventOptions) : M nat :=
  onStateChange id TIMEOUT options.

(** [this.node.tryFindChild(id) as events.Rule ?? this.onStateChange(id, jobState)] *)
Definition metricJobStateRule (id : string) (jobState : triggerState) : M nat :=
  let* found := tryFindChild this id in
  match found with
  | Some rule => ret rule
  | None => onStateChange id jobState Events.noOptions
  end.

(** [metricRule] is called by the three state metrics, but the file
    neither defines nor imports it: resolving the identifier throws. *)
Definition metricRule : M (nat -> option MetricOptions -> Metric) :=
  throw (ReferenceError "metricRule is not defined").

(** [metricRule(this.metricJobStateRule('SuccessMetricRule', ...), props)]:
    the callee of a call is resolved before its arguments are evaluated. *)
Definition metricSuccess (props : option MetricOptions) : M Metric :=
  let* callee := metricRule in
  let* rule := metricJobStateRule "SuccessMetricRule" SUCCEEDED in
  ret (callee rule props).

Definition metricFailure (props : option MetricOptions) : M Metric :=
  let* callee := metricRule in
  let* rule := metricJobStateRule "FailureMetricRule" FAILED in
  ret (callee rule props).

Definition metricTimeout (props : option MetricOptions) : M Metric :=
  let* callee := metricRule in
  let* rule := metricJobStateRule "TimeoutMetricRule" TIMEOUT in
  ret (callee rule props).

End TriggerBase.

End TriggerEvents.

(** ** The first draft

    The oldest revision of the file, copied from the job construct. *)

Module TriggerDraft.

Definition triggeerArn (scope : nat) (jobName : Deferred.t) : Deferred.t :=
  Deferred.formatArn
    {| Deferred.service := "glue";
       Deferred.resource := "job";
       Deferred.resourceName := Some jobName |}.

End TriggerDraft.

(** ** The revision with the plain enumeration and [ScheduledTrigger] *)

Module ScheduledTriggerTs.
Import Scope Cdk.
Local Open Scope scope_monad_scope.

(** [enum TriggerType] *)
Inductive TriggerType : Type :=
| SCHEDULED
| EVENT
| ON_DEMAND
| CONDITIONAL.

#[global] Instance TriggerType_enum : StringEnum TriggerType := {|
  memberName t :=
    match t with
    | SCHEDULED => "SCHEDULED"
    | EVENT => "EVENT"
    | ON_DEMAND => "ON_DEMAND"
    | CONDITIONAL => "CONDITIONAL"
    end;
  value t :=
    match t with
    | SCHEDULED => "SCHEDULED"
    | EVENT => "EVENT"
    | ON_DEMAND => "ON_DEMAND"
    | CONDITIONAL => "CONDITIONAL"
    end
|}.

(** The members of [TriggerType], in the order of their declaration. *)
Definition TriggerType_members : list TriggerType :=
  [SCHEDULED; EVENT; ON_DEMAND; CONDITIONAL].

(** [enum TriggerState] *)
Inductive TriggerState : Type :=
| CREATED
| ACTIVATED
| DEACTIVATED
| ACTIVATING
| CREATING
| DEACTIVATING
| DELETING
| UPDATING.

#[global] Instance TriggerState_enum : StringEnum TriggerState := {|
  memberName s :=
    match s with
    | CREATED => "CREATED"
    | ACTIVATED => "ACTIVATED"
    | DEACTIVATED => "DEACTIVATED"
    | ACTIVATING => "ACTIVATING"
    | CREATING => "CREATING"
    | DEACTIVATING => "DEACTIVATING"
    | DELETING => "DELETING"
    | UPDATING => "UPDATING"
    end;
  value s :=
    match s with
    | CREATED => "CREATED"
    | ACTIVATED => " ACTIVATED"
    | DEACTIVATED => "DEACTIVATED"
    | ACTIVATING => "ACTIVATING"
    | CREATING => "CREATING"
    | DEACTIVATING => "DEACTIVATING"
    | DELETING => "DELETING"
    | UPDATING => "UPDATING"
    end
|}.

(** [interface ScheduledTriggerProps extends TriggerBaseProps] *)
Module ScheduledTriggerProps.
Record t : Type := {
  actions : list Any;
  description : option string;
  workflowName : option string;
  triggerName : option string;
  tags : option (gmap string string);
  schedule : option Events.Schedule;
  startOnCreation : option bool
}.
End ScheduledTriggerProps.

Record ScheduledTrigger : Type := {
  node : nat;
  triggerArn : Deferred.t;
  triggerName : Deferred.t
}.

Definition triggeerArn (scope : nat) (jobName : Deferred.t) : Deferred.t :=
  Deferred.formatArn
    {| Deferred.service := "glue";
       Deferred.resource := "trigger";
       Deferred.resourceName := Some jobName |}.

(** The object literal passed to [new CfnTrigger(this, 'Resource', ...)];
    the schedule is read with [props.schedule?.expressionString], and no
    predicate is passed. *)
Definition resourceRecord (props : ScheduledTriggerProps.t) : CfnTrigger.Props :=
  {| CfnTrigger.workflowName := ScheduledTriggerProps.workflowName props;
     CfnTrigger.tags := ScheduledTriggerProps.tags props;
     CfnTrigger.startOnCreation := ScheduledTriggerProps.startOnCreation props;
     CfnTrigger.schedule :=
       Events.expressionString <$> ScheduledTriggerProps.schedule props;
     CfnTrigger.predicate := None;
     CfnTrigger.name := ScheduledTriggerProps.triggerName props;
     CfnTrigger.actions := ScheduledTriggerProps.actions props;
     CfnTrigger.description := ScheduledTriggerProps.description props;
     CfnTrigger.type := value SCHEDULED |}.

(** [constructor(scope, id, props)]. *)
Definition ScheduledTrigger_new (scope : nat) (id : string)
    (props : ScheduledTriggerProps.t) : M ScheduledTrigger :=
  let* this := Resource_new scope id (ScheduledTriggerProps.triggerName props) in
  let* triggerResource :=
    CfnTrigger_new this "Resource" (resourceRecord props) in
  let* nameAttr := ref triggerResource in
  let resourceName := getResourceNameAttribute this nameAttr in
  ret {| node := this;
         triggerArn := triggeerArn this resourceName;
         triggerName := resourceName |}.

End ScheduledTriggerTs.

(** ** Concrete declarations used in the examples *)

Module Examples.
Import Scope.

(** [new cdk.Stack()]: a tree that holds the stack alone, at address 0. *)
Definition stack : nat := 0.
Definition emptyApp : Heap := [{| path := []; kind := KStack; children := ∅ |}].

(** The [defaultProps] of the tests of the package:
    [{ actions: [], workflowName: '', type: ON_DEMAND }]. *)
Definition defaultProps : TriggerTs.TriggerProps.t :=
  {| TriggerTs.TriggerProps.actions := [];
     TriggerTs.TriggerProps.description := None;
     TriggerTs.TriggerProps.predicate := None;
     TriggerTs.TriggerProps.schedule := None;
     TriggerTs.TriggerProps.startOnCreation := None;
     TriggerTs.TriggerProps.type := TriggerTs.onDemand;
     TriggerTs.TriggerProps.workflowName := Some "";
     TriggerTs.TriggerProps.triggerName := None;
     TriggerTs.TriggerProps.tags := None;
     TriggerTs.TriggerProps.role := None |}.

Definition noon : Events.Schedule :=
  {| Events.expressionString := "cron(0 12 * * ? *)" |}.

(** A scheduled trigger with an explicit name. *)
Definition scheduledProps : TriggerTs.TriggerProps.t :=
  {| TriggerTs.TriggerProps.actions := [];
     TriggerTs.TriggerProps.description := None;
     TriggerTs.TriggerProps.predicate := None;
     TriggerTs.TriggerProps.schedule := Some noon;
     TriggerTs.TriggerProps.startOnCreation := None;
     TriggerTs.TriggerProps.type := TriggerTs.Scheduled;
     TriggerTs.TriggerProps.workflowName := Some "";
     TriggerTs.TriggerProps.triggerName := Some "test-trigger";
     TriggerTs.TriggerProps.tags := None;
     TriggerTs.TriggerProps.role := None |}.

(** The tree once [new Trigger(stack, 'Trigger', scheduledProps)] has
    run, and the trigger it returns, which is at address 1. *)
Definition declared : Heap :=
  snd (TriggerTs.Trigger_new stack "Trigger" scheduledProps emptyApp).

Definition trigger : TriggerTs.Trigger :=
  {| TriggerTs.node := 1;
     TriggerTs.triggerArn :=
       TriggerTs.triggeerArn 1 [Deferred.Ref ["Trigger"; "Resource"]];
     TriggerTs.triggerName := [Deferred.Ref ["Trigger"; "Resource"]];
     TriggerTs.role := 2;
     TriggerTs.grantPrincipal := 2 |}.

Definition noonProps : ScheduledTriggerTs.ScheduledTriggerProps.t :=
  {| ScheduledTriggerTs.ScheduledTriggerProps.actions := [];
     ScheduledTriggerTs.ScheduledTriggerProps.description := None;
     ScheduledTriggerTs.ScheduledTriggerProps.workflowName := None;
     ScheduledTriggerTs.ScheduledTriggerProps.triggerName := None;
     ScheduledTriggerTs.ScheduledTriggerProps.tags := None;
     ScheduledTriggerTs.ScheduledTriggerProps.schedule := Some noon;
     ScheduledTriggerTs.ScheduledTriggerProps.startOnCreation := None |}.

(** The deployment of the tests: partition [aws], region [us-east-1],
    account [123456789012], and the resource named [TriggerD50EE54C]. *)
Definition deployment : Deferred.Environment :=
  {| Deferred.partition := "aws";
     Deferred.region := "us-east-1";
     Deferred.account := "123456789012";
     Deferred.physicalName := fun _ => "TriggerD50EE54C" |}.

End Examples.

(** ** How the two constructors relate *)

Module Revisions.

(** The props of [Trigger] that say what the props of a [ScheduledTrigger]
    say: the type is [Scheduled], there is no predicate, and every other
    field is the field of the same name; [Trigger] has a role in
    addition. *)
Definition asTriggerProps (p : ScheduledTriggerTs.ScheduledTriggerProps.t)
    (role : option nat) : TriggerTs.TriggerProps.t :=
  {| TriggerTs.TriggerProps.actions :=
       ScheduledTriggerTs.ScheduledTriggerProps.actions p;
     TriggerTs.TriggerProps.description :=
       ScheduledTriggerTs.ScheduledTriggerProps.description p;
     TriggerTs.TriggerProps.predicate := None;
     TriggerTs.TriggerProps.schedule :=
       ScheduledTriggerTs.ScheduledTriggerProps.schedule p;
     TriggerTs.TriggerProps.startOnCreation :=
       ScheduledTriggerTs.ScheduledTriggerProps.startOnCreation p;
     TriggerTs.TriggerProps.type := TriggerTs.Scheduled;
     TriggerTs.TriggerProps.workflowName :=
       ScheduledTriggerTs.ScheduledTriggerProps.workflowName p;
     TriggerTs.TriggerProps.triggerName :=
       ScheduledTriggerTs.ScheduledTriggerProps.triggerName p;
     TriggerTs.TriggerProps.tags :=
       ScheduledTriggerTs.ScheduledTriggerProps.tags p;
     TriggerTs.TriggerProps.role := role |}.

End Revisions.

(** * Properties *)

(** ** The scope tree *)

Section ScopeFacts.
Import Scope.

Lemma bind_returns {A B} (m : M A) (k : A -> M B) h a h' :
  m h = (Returns a, h') -> bind m k h = k a h'.
Proof. intros E. unfold bind. now rewrite E. Qed.

Lemma bind_throws {A B} (m : M A) (k : A -> M B) h e h' :
  m h = (Throws e, h') -> bind m k h = (Throws e, h').
Proof. intros E. unfold bind. now rewrite E. Qed.

(** Declaring a child under a free identifier appends the child to the
    heap and records it in its scope. *)
Lemma declareChild_fresh (h : Heap) scope c id k :
  h !! scope = Some c ->
  children c !! id = None ->
  declareChild scope id k h =
    (Returns (length h),
     <[scope := withChild c id (length h)]> h
     ++ [{| path := path c ++ [id]; kind := k; children := ∅ |}]).
Proof. intros Hc Hid. unfold declareChild. now rewrite Hc, Hid. Qed.

Lemma declareChild_duplicate (h : Heap) scope c id k :
  h !! scope = Some c ->
  is_Some (children c !! id) ->
  declareChild scope id k h =
    (Throws (DuplicateDeclarationError (path c) id), h).
Proof. intros Hc [a Ha]. unfold declareChild. now rewrite Hc, Ha. Qed.

(** The same, for a scope that sits in the middle of the heap. *)
Lemma declareChild_middle (l : Heap) X rest id k :
  children X !! id = None ->
  declareChild (length l) id k (l ++ X :: rest) =
    (Returns (length l + S (length rest)),
     l ++ withChild X id (length l + S (length rest)) :: rest
     ++ [{| path := path X ++ [id]; kind := k; children := ∅ |}]).
Proof.
  intros Hid.
  rewrite (declareChild_fresh _ _ X) by (auto using list_lookup_middle).
  rewrite length_app. simpl length.
  f_equal.
  rewrite (insert_app_r_alt l) by lia.
  replace (length l - length l) with 0 by lia.
  simpl. now rewrite <- app_assoc.
Qed.

Lemma lookup_appended (l : Heap) X rest C :
  (l ++ X :: rest ++ [C]) !! (length l + S (length rest)) = Some C.
Proof.
  rewrite lookup_app_r by lia.
  replace (length l + S (length rest) - length l) with (S (length rest)) by lia.
  simpl. rewrite lookup_app_r by lia.
  now replace (length rest - length rest) with 0 by lia.
Qed.

Lemma ref_appended (l : Heap) X rest C :
  Cdk.ref (length l + S (length rest)) (l ++ X :: rest ++ [C]) =
    (Returns [Deferred.Ref (path C)], l ++ X :: rest ++ [C]).
Proof.
  unfold Cdk.ref, bind, pathOf. now rewrite lookup_appended.
Qed.

Lemma roleCount_app (h1 h2 : Heap) :
  roleCount (h1 ++ h2) = roleCount h1 + roleCount h2.
Proof. unfold roleCount. now rewrite List.filter_app, length_app. Qed.

Lemma roleCount_cons (x : Construct) (h : Heap) :
  roleCount (x :: h) = (if isRole x then 1 else 0) + roleCount h.
Proof. unfold roleCount. simpl. now destruct (isRole x). Qed.

(** Registering a child in a construct does not change what it is. *)
Lemma roleCount_insert_withChild (h : Heap) scope c id a :
  h !! scope = Some c ->
  roleCount (<[scope := withChild c id a]> h) = roleCount h.
Proof.
  revert scope. induction h as [|x h IH]; intros [|n] Hc; try discriminate.
  - simpl in Hc. injection Hc as ->.
    change (<[0 := withChild c id a]> (c :: h)) with (withChild c id a :: h).
    now rewrite !roleCount_cons.
  - simpl in Hc.
    change (<[S n := withChild c id a]> (x :: h))
      with (x :: <[n := withChild c id a]> h).
    now rewrite !roleCount_cons, IH.
Qed.

End ScopeFacts.

(** ** The constructors *)

Section Constructors.
Import Scope Cdk.

Variables (h : Heap) (scope : nat) (c : Construct) (id : string).
Hypothesis scope_live : h !! scope = Some c.
Hypothesis id_free : children c !! id = None.

(** The scope once the new construct is registered in it. *)
Let base : Heap := <[scope := withChild c id (length h)]> h.

Lemma base_length : length base = length h.
Proof. apply length_insert. Qed.

(** [new Trigger(scope, id, props)] without [props.role]: the trigger,
    its service role and its resource are appended to the tree. *)
Lemma Trigger_new_default_role props s :
  TriggerTs.TriggerProps.role props = None ->
  TriggerTs.TriggerProps.schedule props = Some s ->
  TriggerTs.Trigger_new scope id props h =
    (Returns
       {| TriggerTs.node := length h;
          TriggerTs.triggerArn :=
            TriggerTs.triggeerArn (length h)
              [Deferred.Ref ((path c ++ [id]) ++ ["Resource"])];
          TriggerTs.triggerName :=
            [Deferred.Ref ((path c ++ [id]) ++ ["Resource"])];
          TriggerTs.role := length h + 1;
          TriggerTs.grantPrincipal := length h + 1 |},
     base
     ++ [{| path := path c ++ [id];
            kind := KResource (TriggerTs.TriggerProps.triggerName props);
            children :=
              <["Resource" := length h + 2]>
                (<["ServiceRole" := length h + 1]> ∅) |};
         {| path := (path c ++ [id]) ++ ["ServiceRole"];
            kind := KRole TriggerTs.glueServiceRole;
            children := ∅ |};
         {| path := (path c ++ [id]) ++ ["Resource"];
            kind := KCfnTrigger
                      (TriggerTs.resourceRecord props (Events.expressionString s));
            children := ∅ |}]).
Proof.
  intros Hrole Hs. unfold TriggerTs.Trigger_new.
  rewrite Hrole, Hs. unfold Resource_new, Role_new, CfnTrigger_new.
  erewrite bind_returns by (apply (declareChild_fresh h scope c); assumption).
  fold base. rewrite <- base_length.
  erewrite bind_returns by (apply (declareChild_middle base); reflexivity).
  erewrite bind_returns by reflexivity.
  erewrite bind_returns.
  2:{ apply (declareChild_middle base). simpl. now rewrite lookup_insert_ne. }
  erewrite bind_returns by (apply (ref_appended base _ [_])).
  unfold ret, getResourceNameAttribute. simpl.
  repeat f_equal; lia.
Qed.

(** The same with [props.role] supplied: no role is declared. *)
Lemma Trigger_new_given_role props s r :
  TriggerTs.TriggerProps.role props = Some r ->
  TriggerTs.TriggerProps.schedule props = Some s ->
  TriggerTs.Trigger_new scope id props h =
    (Returns
       {| TriggerTs.node := length h;
          TriggerTs.triggerArn :=
            TriggerTs.triggeerArn (length h)
              [Deferred.Ref ((path c ++ [id]) ++ ["Resource"])];
          TriggerTs.triggerName :=
            [Deferred.Ref ((path c ++ [id]) ++ ["Resource"])];
          TriggerTs.role := r;
          TriggerTs.grantPrincipal := r |},
     base
     ++ [{| path := path c ++ [id];
            kind := KResource (TriggerTs.TriggerProps.triggerName props);
            children := <["Resource" := length h + 1]> ∅ |};
         {| path := (path c ++ [id]) ++ ["Resource"];
            kind := KCfnTrigger
                      (TriggerTs.resourceRecord props (Events.expressionString s));
            children := ∅ |}]).
Proof.
  intros Hrole Hs. unfold TriggerTs.Trigger_new.
  rewrite Hrole, Hs. unfold Resource_new, CfnTrigger_new.
  erewrite bind_returns by (apply (declareChild_fresh h scope c); assumption).
  fold base. rewrite <- base_length.
  erewrite bind_returns by reflexivity.
  erewrite bind_returns by reflexivity.
  erewrite bind_returns by (apply (declareChild_middle base); reflexivity).
  erewrite bind_returns by (apply (ref_appended base _ [])).
  unfold ret, getResourceNameAttribute. simpl.
  repeat f_equal; lia.
Qed.

(** Without [props.schedule] the constructor throws, once the trigger
    (and its default role) is registered. *)
Lemma Trigger_new_no_schedule props :
  TriggerTs.TriggerProps.schedule props = None ->
  fst (TriggerTs.Trigger_new scope id props h) =
    Throws (TypeError
      "Cannot read properties of undefined (reading 'expressionString')").
Proof.
  intros Hs. unfold TriggerTs.Trigger_new. rewrite Hs.
  unfold Resource_new, Role_new.
  erewrite bind_returns by (apply (declareChild_fresh h scope c); assumption).
  fold base. rewrite <- base_length.
  destruct (TriggerTs.TriggerProps.role props) as [r|].
  - erewrite bind_returns by reflexivity. reflexivity.
  - erewrite bind_returns by (apply (declareChild_middle base); reflexivity).
    reflexivity.
Qed.

(** [new ScheduledTrigger(scope, id, props)]. *)
Lemma ScheduledTrigger_new_returns props :
  ScheduledTriggerTs.ScheduledTrigger_new scope id props h =
    (Returns
       {| ScheduledTriggerTs.node := length h;
          ScheduledTriggerTs.triggerArn :=
            ScheduledTriggerTs.triggeerArn (length h)
              [Deferred.Ref ((path c ++ [id]) ++ ["Resource"])];
          ScheduledTriggerTs.triggerName :=
            [Deferred.Ref ((path c ++ [id]) ++ ["Resource"])] |},
     base
     ++ [{| path := path c ++ [id];
            kind := KResource
                      (ScheduledTriggerTs.ScheduledTriggerProps.triggerName props);
            children := <["Resource" := length h + 1]> ∅ |};
         {| path := (path c ++ [id]) ++ ["Resource"];
            kind := KCfnTrigger (ScheduledTriggerTs.resourceRecord props);
            children := ∅ |}]).
Proof.
  unfold ScheduledTriggerTs.ScheduledTrigger_new, Resource_new, CfnTrigger_new.
  erewrite bind_returns by (apply (declareChild_fresh h scope c); assumption).
  fold base. rewrite <- base_length.
  erewrite bind_returns by (apply (declareChild_middle base); reflexivity).
  erewrite bind_returns by (apply (ref_appended base _ [])).
  unfold ret, getResourceNameAttribute. simpl.
  repeat f_equal; lia.
Qed.

(** Reading the tree after a declaration: the new constructs follow the
    old ones, and the scope has the new child. *)
Lemma lookup_declared (l : Heap) k :
  (base ++ l) !! (length h + k) = l !! k.
Proof.
  rewrite lookup_app_r by (rewrite base_length; lia).
  rewrite base_length. f_equal. lia.
Qed.

Lemma lookup_scope_declared (l : Heap) :
  (base ++ l) !! scope = Some (withChild c id (length h)).
Proof.
  pose proof (lookup_lt_Some _ _ _ scope_live).
  rewrite lookup_app_l by (rewrite base_length; lia).
  unfold base. now apply list_lookup_insert_eq.
Qed.

Lemma child_declared (l : Heap) T name k C :
  l !! 0 = Some T ->
  children T !! name = Some (length h + k) ->
  l !! k = Some C ->
  child (base ++ l) (length h) name = Some (length h + k, C).
Proof.
  intros HT Hname HC. unfold child.
  replace ((base ++ l) !! length h) with (l !! 0)
    by (rewrite <- (lookup_declared l 0); f_equal; lia).
  rewrite HT. cbn [mbind option_bind]. rewrite Hname.
  cbn [mbind option_bind]. rewrite lookup_declared, HC. reflexivity.
Qed.

Lemma child_not_declared (l : Heap) T name :
  l !! 0 = Some T ->
  children T !! name = None ->
  child (base ++ l) (length h) name = None.
Proof.
  intros HT Hname. unfold child.
  replace ((base ++ l) !! length h) with (l !! 0)
    by (rewrite <- (lookup_declared l 0); f_equal; lia).
  rewrite HT. cbn [mbind option_bind]. now rewrite Hname.
Qed.

Lemma emitted_declared (l : Heap) T k C record :
  l !! 0 = Some T ->
  children T !! "Resource" = Some (length h + k) ->
  l !! k = Some C ->
  kind C = KCfnTrigger record ->
  emitted (base ++ l) (length h) = Some record.
Proof.
  intros HT Hname HC Hkind. unfold emitted.
  rewrite (child_declared l T "Resource" k C HT Hname HC).
  destruct C as [p k' ch]. simpl in Hkind. now subst k'.
Qed.

Lemma roleCount_declared (l : Heap) :
  roleCount (base ++ l) = roleCount h + roleCount l.
Proof.
  rewrite roleCount_app. unfold base.
  now rewrite (roleCount_insert_withChild h scope c).
Qed.

End Constructors.

(** An identifier that the scope already has is refused before anything is
    declared. *)
Lemma Trigger_new_duplicate (h : Scope.Heap) scope c id props :
  h !! scope = Some c ->
  is_Some (Scope.children c !! id) ->
  TriggerTs.Trigger_new scope id props h =
    (Scope.Throws (Scope.DuplicateDeclarationError (Scope.path c) id), h).
Proof.
  intros Hc Hid. unfold TriggerTs.Trigger_new, Cdk.Resource_new.
  now erewrite bind_throws by (apply (declareChild_duplicate h scope c); assumption).
Qed.

(** A construction that returns was given a live scope, a free identifier
    and a schedule. *)
Lemma Trigger_new_returns_inv (h : Scope.Heap) scope id props t h' :
  TriggerTs.Trigger_new scope id props h = (Scope.Returns t, h') ->
  exists c s,
    h !! scope = Some c /\ Scope.children c !! id = None
    /\ TriggerTs.TriggerProps.schedule props = Some s.
Proof.
  intros Hnew.
  destruct (h !! scope) as [c|] eqn:Hc.
  - destruct (Scope.children c !! id) as [a|] eqn:Hid.
    + rewrite (Trigger_new_duplicate h scope c) in Hnew by eauto. discriminate.
    + destruct (TriggerTs.TriggerProps.schedule props) as [s|] eqn:Hs; [eauto|].
      pose proof (Trigger_new_no_schedule h scope c id Hc Hid props Hs) as Hthrow.
      rewrite Hnew in Hthrow. discriminate.
  - unfold TriggerTs.Trigger_new, Cdk.Resource_new, Scope.bind, Scope.declareChild in Hnew.
    rewrite Hc in Hnew. discriminate.
Qed.

(** ** The event and metric layer *)

Section EventLayer.
Import Scope Cdk.

Variables (this : nat) (jobName : Deferred.t).
Variables (h : Heap) (c : Construct) (id : string).
Hypothesis this_live : h !! this = Some c.

Lemma mutate_last (l : Heap) X f :
  mutate (length l) f (l ++ [X]) = (Returns tt, l ++ [withKind f X]).
Proof.
  unfold mutate. rewrite list_lookup_middle by reflexivity.
  rewrite (insert_app_r_alt l) by lia.
  now replace (length l - length l) with 0 by lia.
Qed.

(** Under a free identifier [onEvent] declares one rule, as a child of
    the trigger. *)
Lemma onEvent_fresh options :
  children c !! id = None ->
  exists rule,
    TriggerEvents.onEvent this jobName id options h =
      (Returns (length h),
       <[this := withChild c id (length h)]> h
       ++ [{| path := path c ++ [id]; kind := KRule rule; children := ∅ |}]).
Proof.
  intros Hid. eexists. unfold TriggerEvents.onEvent, Rule_new.
  erewrite bind_returns by (apply (declareChild_fresh h this c); assumption).
  set (base := <[this := withChild c id (length h)]> h).
  assert (Hlen : length h = length base) by (symmetry; apply length_insert).
  rewrite Hlen.
  erewrite bind_returns by apply mutate_last.
  erewrite bind_returns by apply mutate_last.
  reflexivity.
Qed.

Lemma onEvent_taken options :
  is_Some (children c !! id) ->
  TriggerEvents.onEvent this jobName id options h =
    (Throws (DuplicateDeclarationError (path c) id), h).
Proof.
  intros Hid. unfold TriggerEvents.onEvent, Rule_new.
  now erewrite bind_throws by (apply (declareChild_duplicate h this c); assumption).
Qed.

Lemma onStateChange_fresh st options :
  children c !! id = None ->
  exists rule,
    TriggerEvents.onStateChange this jobName id st options h =
      (Returns (length h),
       <[this := withChild c id (length h)]> h
       ++ [{| path := path c ++ [id]; kind := KRule rule; children := ∅ |}]).
Proof.
  intros Hid. unfold TriggerEvents.onStateChange.
  destruct (onEvent_fresh
              (TriggerEvents.withDescription
                 (TriggerEvents.stateDescription jobName (value st)) options) Hid)
    as [rule Hrule].
  eexists. erewrite bind_returns by exact Hrule.
  set (base := <[this := withChild c id (length h)]> h).
  assert (Hlen : length h = length base) by (symmetry; apply length_insert).
  rewrite Hlen.
  erewrite bind_returns by apply mutate_last.
  reflexivity.
Qed.

(** Under an identifier that a child already has it throws, and declares
    nothing. *)
Lemma onStateChange_taken st options :
  is_Some (children c !! id) ->
  TriggerEvents.onStateChange this jobName id st options h =
    (Throws (DuplicateDeclarationError (path c) id), h).
Proof.
  intros Hid. unfold TriggerEvents.onStateChange.
  now erewrite bind_throws by (apply onEvent_taken; assumption).
Qed.

Lemma metricJobStateRule_found st rule :
  children c !! id = Some rule ->
  TriggerEvents.metricJobStateRule this jobName id st h = (Returns rule, h).
Proof.
  intros Hid. unfold TriggerEvents.metricJobStateRule, bind, tryFindChild.
  now rewrite this_live, Hid.
Qed.

Lemma metricJobStateRule_missing st :
  children c !! id = None ->
  TriggerEvents.metricJobStateRule this jobName id st h =
    TriggerEvents.onStateChange this jobName id st Events.noOptions h.
Proof.
  intros Hid. unfold TriggerEvents.metricJobStateRule, bind, tryFindChild.
  now rewrite this_live, Hid.
Qed.

(** The rule that [metricJobStateRule] returns is the one a second call
    returns, and the second call leaves the tree as it is. *)
Lemma metricJobStateRule_twice st st' :
  exists rule (h1 : Heap),
    TriggerEvents.metricJobStateRule this jobName id st h = (Returns rule, h1)
    /\ TriggerEvents.metricJobStateRule this jobName id st' h1 = (Returns rule, h1).
Proof.
  destruct (children c !! id) as [rule|] eqn:Hid.
  - exists rule, h.
    split; now apply metricJobStateRule_found.
  - destruct (onStateChange_fresh st Events.noOptions Hid) as [r Hr].
    do 2 eexists. split.
    + rewrite (metricJobStateRule_missing st Hid). exact Hr.
    + unfold TriggerEvents.metricJobStateRule, bind, tryFindChild.
      rewrite (lookup_scope_declared h this c id this_live).
      cbn [children withChild]. now rewrite lookup_insert_eq.
Qed.

(** A second [onStateChange] under the identifier of a first one throws. *)
Lemma onStateChange_twice st st' options options' rule (h1 : Heap) :
  TriggerEvents.onStateChange this jobName id st options h = (Returns rule, h1) ->
  TriggerEvents.onStateChange this jobName id st' options' h1 =
    (Throws (DuplicateDeclarationError (path c) id), h1).
Proof.
  intros Hfirst.
  destruct (children c !! id) as [r|] eqn:Hid.
  - rewrite onStateChange_taken in Hfirst by eauto. discriminate.
  - destruct (onStateChange_fresh st options Hid) as [r Hr].
    rewrite Hr in Hfirst. injection Hfirst as _ <-.
    unfold TriggerEvents.onStateChange, TriggerEvents.onEvent, Rule_new.
    erewrite bind_throws; [reflexivity|].
    erewrite bind_throws; [reflexivity|].
    apply (declareChild_duplicate _ this (withChild c id (length h))).
    + apply (lookup_scope_declared h this c id this_live).
    + exists (length h). apply lookup_insert_eq.
Qed.

End EventLayer.

(** ** The attributes of a trigger *)

(** C1: the [triggerArn] of every constructed [Trigger] is the template
    [arn:{partition}:glue:{region}:{account}:trigger/{name}] formatted from
    the deferred partition, region and account, the literal [trigger] and
    the trigger name; it depends on nothing else, so two triggers with the
    same name have the same ARN. *)
Theorem triggerArn_formats_template
    (h : Scope.Heap) scope id props t (h' : Scope.Heap) :
  TriggerTs.Trigger_new scope id props h = (Scope.Returns t, h') ->
  TriggerTs.triggerArn t =
    Deferred.formatArn
      {| Deferred.service := "glue";
         Deferred.resource := "trigger";
         Deferred.resourceName := Some (TriggerTs.triggerName t) |}
  /\ (forall env,
        Deferred.resolve env (TriggerTs.triggerArn t) =
          "arn:" +:+ Deferred.partition env +:+ ":glue:"
          +:+ Deferred.region env +:+ ":" +:+ Deferred.account env
          +:+ ":trigger/" +:+ Deferred.resolve env (TriggerTs.triggerName t))
  /\ (forall (h2 : Scope.Heap) scope2 id2 props2 t2 (h2' : Scope.Heap),
        TriggerTs.Trigger_new scope2 id2 props2 h2 = (Scope.Returns t2, h2') ->
        TriggerTs.triggerName t2 = TriggerTs.triggerName t ->
        TriggerTs.triggerArn t2 = TriggerTs.triggerArn t).
Proof.
  assert (Harn : forall (h : Scope.Heap) scope id props t (h' : Scope.Heap),
             TriggerTs.Trigger_new scope id props h = (Scope.Returns t, h') ->
             TriggerTs.triggerArn t =
               Deferred.formatArn
                 {| Deferred.service := "glue";
                    Deferred.resource := "trigger";
                    Deferred.resourceName := Some (TriggerTs.triggerName t) |}).
  { clear. intros h scope id props t h' Hnew.
    destruct (Trigger_new_returns_inv _ _ _ _ _ _ Hnew) as (c & s & Hc & Hid & Hs).
    destruct (TriggerTs.TriggerProps.role props) as [r|] eqn:Hrole.
    - rewrite (Trigger_new_given_role h scope c id Hc Hid props s r Hrole Hs) in Hnew.
      injection Hnew as <- _. reflexivity.
    - rewrite (Trigger_new_default_role h scope c id Hc Hid props s Hrole Hs) in Hnew.
      injection Hnew as <- _. reflexivity. }
  intros Hnew. split; [|split].
  - exact (Harn _ _ _ _ _ _ Hnew).
  - intros env. rewrite (Harn _ _ _ _ _ _ Hnew). reflexivity.
  - intros h2 scope2 id2 props2 t2 h2' Hnew2 Hname.
    rewrite (Harn _ _ _ _ _ _ Hnew), (Harn _ _ _ _ _ _ Hnew2). now rewrite Hname.
Qed.

Lemma triggerArn_formats_template_witness :
  TriggerTs.Trigger_new Examples.stack "Trigger" Examples.scheduledProps
    Examples.emptyApp = (Scope.Returns Examples.trigger, Examples.declared)
  /\ TriggerTs.triggerArn Examples.trigger =
       Deferred.formatArn
         {| Deferred.service := "glue";
            Deferred.resource := "trigger";
            Deferred.resourceName := Some (TriggerTs.triggerName Examples.trigger) |}
  /\ (forall env,
        Deferred.resolve env (TriggerTs.triggerArn Examples.trigger) =
          "arn:" +:+ Deferred.partition env +:+ ":glue:"
          +:+ Deferred.region env +:+ ":" +:+ Deferred.account env
          +:+ ":trigger/"
          +:+ Deferred.resolve env (TriggerTs.triggerName Examples.trigger))
  /\ (forall (h2 : Scope.Heap) scope2 id2 props2 t2 (h2' : Scope.Heap),
        TriggerTs.Trigger_new scope2 id2 props2 h2 = (Scope.Returns t2, h2') ->
        TriggerTs.triggerName t2 = TriggerTs.triggerName Examples.trigger ->
        TriggerTs.triggerArn t2 = TriggerTs.triggerArn Examples.trigger).
Proof.
  split; [reflexivity|].
  apply (triggerArn_formats_template Examples.emptyApp Examples.stack "Trigger"
           Examples.scheduledProps Examples.trigger Examples.declared).
  reflexivity.
Defined.

(** The first draft named the resource type [job]: its ARN is not the
    trigger template. *)
Lemma draft_triggeerArn_names_job scope jobName env :
  Deferred.resolve env (TriggerDraft.triggeerArn scope jobName) =
    "arn:" +:+ Deferred.partition env +:+ ":glue:"
    +:+ Deferred.region env +:+ ":" +:+ Deferred.account env
    +:+ ":job/" +:+ Deferred.resolve env jobName.
Proof. reflexivity. Qed.

(** The ARN of the trigger of the tests, as the tests expect it: the
    [Fn::Join] of the literal pieces and the references, and its value once
    deployed. *)
Lemma test_triggerArn_rendering :
  Deferred.fnJoin (TriggerTs.triggerArn Examples.trigger) =
    [Deferred.Lit "arn:"; Deferred.AwsPartition; Deferred.Lit ":glue:";
     Deferred.AwsRegion; Deferred.Lit ":"; Deferred.AwsAccountId;
     Deferred.Lit ":trigger/"; Deferred.Ref ["Trigger"; "Resource"]]
  /\ Deferred.resolve Examples.deployment (TriggerTs.triggerArn Examples.trigger) =
       "arn:aws:glue:us-east-1:123456789012:trigger/TriggerD50EE54C".
Proof. split; reflexivity. Qed.

(** C2: with the props of the tests ([type] ON_DEMAND, no actions, an empty
    workflow name, and no schedule) the constructor of [lib/trigger.ts]
    does not return: reading [props.schedule.expressionString] throws. *)
Theorem default_props_construction_throws :
  fst (TriggerTs.Trigger_new Examples.stack "Trigger" Examples.defaultProps
         Examples.emptyApp) =
    Scope.Throws (Scope.TypeError
      "Cannot read properties of undefined (reading 'expressionString')").
Proof. reflexivity. Qed.

(** C4: an explicit [props.triggerName] is the [name] of the emitted
    record, unchanged. *)
Theorem explicit_name_is_emitted (h : Scope.Heap) scope c id props s N :
  h !! scope = Some c ->
  Scope.children c !! id = None ->
  TriggerTs.TriggerProps.schedule props = Some s ->
  TriggerTs.TriggerProps.triggerName props = Some N ->
  exists t h' record,
    TriggerTs.Trigger_new scope id props h = (Scope.Returns t, h')
    /\ Cdk.emitted h' (TriggerTs.node t) = Some record
    /\ CfnTrigger.name record = Some N.
Proof.
  intros Hc Hid Hs HN.
  destruct (TriggerTs.TriggerProps.role props) as [r|] eqn:Hrole.
  - do 3 eexists. split; [apply (Trigger_new_given_role h scope c id Hc Hid props s r Hrole Hs)|].
    split; [eapply (emitted_declared h scope c id) with (k := 1);
      [reflexivity | apply lookup_insert_eq | reflexivity | reflexivity] | exact HN].
  - do 3 eexists. split; [apply (Trigger_new_default_role h scope c id Hc Hid props s Hrole Hs)|].
    split; [eapply (emitted_declared h scope c id) with (k := 2);
      [reflexivity | apply lookup_insert_eq | reflexivity | reflexivity] | exact HN].
Qed.

Lemma explicit_name_is_emitted_witness :
  Examples.emptyApp !! Examples.stack =
    Some {| Scope.path := []; Scope.kind := Scope.KStack; Scope.children := ∅ |}
  /\ (∅ : gmap string nat) !! "triggerWithName" = None
  /\ TriggerTs.TriggerProps.schedule Examples.scheduledProps = Some Examples.noon
  /\ TriggerTs.TriggerProps.triggerName Examples.scheduledProps = Some "test-trigger"
  /\ exists t h' record,
       TriggerTs.Trigger_new Examples.stack "triggerWithName"
         Examples.scheduledProps Examples.emptyApp = (Scope.Returns t, h')
       /\ Cdk.emitted h' (TriggerTs.node t) = Some record
       /\ CfnTrigger.name record = Some "test-trigger".
Proof.
  repeat (split; [reflexivity|]).
  apply (explicit_name_is_emitted Examples.emptyApp Examples.stack
           {| Scope.path := []; Scope.kind := Scope.KStack; Scope.children := ∅ |}
           "triggerWithName" Examples.scheduledProps Examples.noon "test-trigger");
    reflexivity.
Defined.

(** ** The role of a trigger *)

(** C6: when [props.role] is omitted the constructor declares one role, the
    [ServiceRole] child of the trigger, assumed by [glue.amazonaws.com]
    with the managed policy [service-role/AWSGlueServiceRole], and the tree
    has exactly one role more; when a role is supplied no role is declared
    and the supplied role is the role of the trigger. *)
Theorem default_role_declared_once (h : Scope.Heap) scope c id props s :
  h !! scope = Some c ->
  Scope.children c !! id = None ->
  TriggerTs.TriggerProps.schedule props = Some s ->
  exists t h',
    TriggerTs.Trigger_new scope id props h = (Scope.Returns t, h')
    /\ match TriggerTs.TriggerProps.role props with
       | None =>
           Scope.roleCount h' = S (Scope.roleCount h)
           /\ Scope.child h' (TriggerTs.node t) "ServiceRole" =
                Some (TriggerTs.role t,
                      {| Scope.path := (Scope.path c ++ [id]) ++ ["ServiceRole"];
                         Scope.kind :=
                           Scope.KRole
                             {| Iam.assumedBy :=
                                  Iam.ServicePrincipal "glue.amazonaws.com";
                                Iam.managedPolicies :=
                                  [Iam.fromAwsManagedPolicyName
                                     "service-role/AWSGlueServiceRole"] |};
                         Scope.children := ∅ |})
       | Some r =>
           Scope.roleCount h' = Scope.roleCount h
           /\ Scope.child h' (TriggerTs.node t) "ServiceRole" = None
           /\ TriggerTs.role t = r
       end.
Proof.
  intros Hc Hid Hs.
  destruct (TriggerTs.TriggerProps.role props) as [r|] eqn:Hrole.
  - do 2 eexists.
    split; [apply (Trigger_new_given_role h scope c id Hc Hid props s r Hrole Hs)|].
    split; [|split].
    + rewrite (roleCount_declared h scope c id Hc). unfold Scope.roleCount. simpl. lia.
    + eapply (child_not_declared h scope c id); [reflexivity|].
      cbn [Scope.children]. now rewrite lookup_insert_ne.
    + reflexivity.
  - do 2 eexists.
    split; [apply (Trigger_new_default_role h scope c id Hc Hid props s Hrole Hs)|].
    split.
    + rewrite (roleCount_declared h scope c id Hc). unfold Scope.roleCount. simpl. lia.
    + eapply (child_declared h scope c id) with (k := 1); [reflexivity| |reflexivity].
      cbn [Scope.children]. rewrite lookup_insert_ne by discriminate.
      apply lookup_insert_eq.
Qed.

Lemma default_role_declared_once_witness :
  Examples.emptyApp !! Examples.stack =
    Some {| Scope.path := []; Scope.kind := Scope.KStack; Scope.children := ∅ |}
  /\ (∅ : gmap string nat) !! "Trigger" = None
  /\ TriggerTs.TriggerProps.schedule Examples.scheduledProps = Some Examples.noon
  /\ exists t h',
       TriggerTs.Trigger_new Examples.stack "Trigger" Examples.scheduledProps
         Examples.emptyApp = (Scope.Returns t, h')
       /\ Scope.roleCount h' = S (Scope.roleCount Examples.emptyApp)
       /\ Scope.child h' (TriggerTs.node t) "ServiceRole" =
            Some (TriggerTs.role t,
                  {| Scope.path := ["Trigger"; "ServiceRole"];
                     Scope.kind :=
                       Scope.KRole
                         {| Iam.assumedBy :=
                              Iam.ServicePrincipal "glue.amazonaws.com";
                            Iam.managedPolicies :=
                              [Iam.fromAwsManagedPolicyName
                                 "service-role/AWSGlueServiceRole"] |};
                     Scope.children := ∅ |}).
Proof.
  repeat (split; [reflexivity|]).
  apply (default_role_declared_once Examples.emptyApp Examples.stack
           {| Scope.path := []; Scope.kind := Scope.KStack; Scope.children := ∅ |}
           "Trigger" Examples.scheduledProps Examples.noon);
    reflexivity.
Defined.

(** C9: the [grantPrincipal] of a constructed trigger is its role: the
    supplied role when [props.role] is given, the declared service role
    otherwise. *)
Theorem grantPrincipal_is_role
    (h : Scope.Heap) scope id props t (h' : Scope.Heap) :
  TriggerTs.Trigger_new scope id props h = (Scope.Returns t, h') ->
  TriggerTs.grantPrincipal t = TriggerTs.role t
  /\ match TriggerTs.TriggerProps.role props with
     | Some r => TriggerTs.role t = r
     | None =>
         exists serviceRole,
           Scope.child h' (TriggerTs.node t) "ServiceRole" =
             Some (TriggerTs.role t, serviceRole)
           /\ Scope.kind serviceRole = Scope.KRole TriggerTs.glueServiceRole
     end.
Proof.
  intros Hnew.
  destruct (Trigger_new_returns_inv _ _ _ _ _ _ Hnew) as (c & s & Hc & Hid & Hs).
  destruct (TriggerTs.TriggerProps.role props) as [r|] eqn:Hrole.
  - rewrite (Trigger_new_given_role h scope c id Hc Hid props s r Hrole Hs) in Hnew.
    injection Hnew as <- <-. split; reflexivity.
  - rewrite (Trigger_new_default_role h scope c id Hc Hid props s Hrole Hs) in Hnew.
    injection Hnew as <- <-. split; [reflexivity|].
    eexists. split.
    + eapply (child_declared h scope c id) with (k := 1); [reflexivity| |reflexivity].
      cbn [Scope.children]. rewrite lookup_insert_ne by discriminate.
      apply lookup_insert_eq.
    + reflexivity.
Qed.

Lemma grantPrincipal_is_role_witness :
  TriggerTs.Trigger_new Examples.stack "Trigger" Examples.scheduledProps
    Examples.emptyApp = (Scope.Returns Examples.trigger, Examples.declared)
  /\ TriggerTs.grantPrincipal Examples.trigger = TriggerTs.role Examples.trigger
  /\ exists serviceRole,
       Scope.child Examples.declared (TriggerTs.node Examples.trigger) "ServiceRole" =
         Some (TriggerTs.role Examples.trigger, serviceRole)
       /\ Scope.kind serviceRole = Scope.KRole TriggerTs.glueServiceRole.
Proof.
  split; [reflexivity|].
  apply (grantPrincipal_is_role Examples.emptyApp Examples.stack "Trigger"
           Examples.scheduledProps Examples.trigger Examples.declared).
  reflexivity.
Defined.

(** ** Identifier collisions *)

(** C7: once a trigger is declared in a scope under an identifier, a second
    declaration in that scope under the same identifier fails with
    [DuplicateDeclarationError], whatever its props, and declares nothing. *)
Theorem same_identifier_is_refused
    (h : Scope.Heap) scope id props1 props2 t1 (h1 : Scope.Heap) :
  TriggerTs.Trigger_new scope id props1 h = (Scope.Returns t1, h1) ->
  exists c,
    h !! scope = Some c
    /\ TriggerTs.Trigger_new scope id props2 h1 =
         (Scope.Throws (Scope.DuplicateDeclarationError (Scope.path c) id), h1).
Proof.
  intros Hnew.
  destruct (Trigger_new_returns_inv _ _ _ _ _ _ Hnew) as (c & s & Hc & Hid & Hs).
  exists c. split; [exact Hc|].
  assert (Hscope : h1 !! scope = Some (Scope.withChild c id (length h))).
  { destruct (TriggerTs.TriggerProps.role props1) as [r|] eqn:Hrole.
    - rewrite (Trigger_new_given_role h scope c id Hc Hid props1 s r Hrole Hs) in Hnew.
      injection Hnew as _ <-. now apply lookup_scope_declared.
    - rewrite (Trigger_new_default_role h scope c id Hc Hid props1 s Hrole Hs) in Hnew.
      injection Hnew as _ <-. now apply lookup_scope_declared. }
  apply (Trigger_new_duplicate h1 scope _ id props2 Hscope).
  exists (length h). apply lookup_insert_eq.
Qed.

Lemma same_identifier_is_refused_witness :
  TriggerTs.Trigger_new Examples.stack "Trigger" Examples.scheduledProps
    Examples.emptyApp = (Scope.Returns Examples.trigger, Examples.declared)
  /\ exists c,
       Examples.emptyApp !! Examples.stack = Some c
       /\ TriggerTs.Trigger_new Examples.stack "Trigger" Examples.defaultProps
            Examples.declared =
            (Scope.Throws (Scope.DuplicateDeclarationError (Scope.path c) "Trigger"),
             Examples.declared).
Proof.
  split; [reflexivity|].
  apply (same_identifier_is_refused Examples.emptyApp Examples.stack "Trigger"
           Examples.scheduledProps Examples.defaultProps Examples.trigger
           Examples.declared).
  reflexivity.
Defined.

(** ** The emitted record of a scheduled trigger *)

(** C8: a trigger declared with the cron schedule of minute 0 and hour 12
    of every day and with the type SCHEDULED emits a record whose
    [schedule] is that expression, unchanged, and whose [type] is
    [SCHEDULED], through the [Trigger] constructor as
    through the [ScheduledTrigger] constructor. *)
Theorem scheduled_record_fields (h : Scope.Heap) scope c id s :
  h !! scope = Some c ->
  Scope.children c !! id = None ->
  Events.expressionString s = "cron(0 12 * * ? *)" ->
  (forall props,
      TriggerTs.TriggerProps.schedule props = Some s ->
      TriggerTs.TriggerProps.type props = TriggerTs.Scheduled ->
      exists t h' record,
        TriggerTs.Trigger_new scope id props h = (Scope.Returns t, h')
        /\ Cdk.emitted h' (TriggerTs.node t) = Some record
        /\ CfnTrigger.schedule record = Some "cron(0 12 * * ? *)"
        /\ CfnTrigger.type record = "SCHEDULED")
  /\ (forall props,
        ScheduledTriggerTs.ScheduledTriggerProps.schedule props = Some s ->
        exists t h' record,
          ScheduledTriggerTs.ScheduledTrigger_new scope id props h =
            (Scope.Returns t, h')
          /\ Cdk.emitted h' (ScheduledTriggerTs.node t) = Some record
          /\ CfnTrigger.schedule record = Some "cron(0 12 * * ? *)"
          /\ CfnTrigger.type record = "SCHEDULED").
Proof.
  intros Hc Hid Hcron. split.
  - intros props Hs Htype.
    destruct (TriggerTs.TriggerProps.role props) as [r|] eqn:Hrole.
    + do 3 eexists.
      split; [apply (Trigger_new_given_role h scope c id Hc Hid props s r Hrole Hs)|].
      split; [eapply (emitted_declared h scope c id) with (k := 1);
                [reflexivity | apply lookup_insert_eq | reflexivity | reflexivity]|].
      cbn. now rewrite Hcron, Htype.
    + do 3 eexists.
      split; [apply (Trigger_new_default_role h scope c id Hc Hid props s Hrole Hs)|].
      split; [eapply (emitted_declared h scope c id) with (k := 2);
                [reflexivity | apply lookup_insert_eq | reflexivity | reflexivity]|].
      cbn. now rewrite Hcron, Htype.
  - intros props Hs. do 3 eexists.
    split; [apply (ScheduledTrigger_new_returns h scope c id Hc Hid props)|].
    split; [eapply (emitted_declared h scope c id) with (k := 1);
              [reflexivity | apply lookup_insert_eq | reflexivity | reflexivity]|].
    cbn. now rewrite Hs, <- Hcron.
Qed.

Lemma scheduled_record_fields_witness :
  Examples.emptyApp !! Examples.stack =
    Some {| Scope.path := []; Scope.kind := Scope.KStack; Scope.children := ∅ |}
  /\ (∅ : gmap string nat) !! "Trigger" = None
  /\ Events.expressionString Examples.noon = "cron(0 12 * * ? *)"
  /\ TriggerTs.TriggerProps.schedule Examples.scheduledProps = Some Examples.noon
  /\ TriggerTs.TriggerProps.type Examples.scheduledProps = TriggerTs.Scheduled
  /\ ScheduledTriggerTs.ScheduledTriggerProps.schedule Examples.noonProps =
       Some Examples.noon
  /\ (exists t h' record,
        TriggerTs.Trigger_new Examples.stack "Trigger" Examples.scheduledProps
          Examples.emptyApp = (Scope.Returns t, h')
        /\ Cdk.emitted h' (TriggerTs.node t) = Some record
        /\ CfnTrigger.schedule record = Some "cron(0 12 * * ? *)"
        /\ CfnTrigger.type record = "SCHEDULED")
  /\ (exists t h' record,
        ScheduledTriggerTs.ScheduledTrigger_new Examples.stack "Trigger"
          Examples.noonProps Examples.emptyApp = (Scope.Returns t, h')
        /\ Cdk.emitted h' (ScheduledTriggerTs.node t) = Some record
        /\ CfnTrigger.schedule record = Some "cron(0 12 * * ? *)"
        /\ CfnTrigger.type record = "SCHEDULED").
Proof.
  repeat (split; [reflexivity|]).
  pose proof (scheduled_record_fields Examples.emptyApp Examples.stack
                {| Scope.path := []; Scope.kind := Scope.KStack; Scope.children := ∅ |}
                "Trigger" Examples.noon eq_refl eq_refl eq_refl) as [HT HS].
  split.
  - apply (HT Examples.scheduledProps); reflexivity.
  - apply (HS Examples.noonProps); reflexivity.
Defined.

(** ** The enumerations *)

(** The [TriggerType] enumeration of the later revision has exactly the
    four members SCHEDULED, EVENT, ON_DEMAND and CONDITIONAL, and the
    string value of each is its name. *)
Lemma enum_TriggerType_has_four_members :
  ScheduledTriggerTs.TriggerType_members =
    [ScheduledTriggerTs.SCHEDULED; ScheduledTriggerTs.EVENT;
     ScheduledTriggerTs.ON_DEMAND; ScheduledTriggerTs.CONDITIONAL]
  /\ (forall t : ScheduledTriggerTs.TriggerType,
        t ∈ ScheduledTriggerTs.TriggerType_members)
  /\ NoDup ScheduledTriggerTs.TriggerType_members
  /\ value <$> ScheduledTriggerTs.TriggerType_members =
       ["SCHEDULED"; "EVENT"; "ON_DEMAND"; "CONDITIONAL"]
  /\ (forall t : ScheduledTriggerTs.TriggerType, value t = memberName t).
Proof.
  split; [reflexivity|]. split; [|split; [|split]].
  - intros []; unfold ScheduledTriggerTs.TriggerType_members;
      repeat (first [apply list_elem_of_here | apply list_elem_of_further]).
  - unfold ScheduledTriggerTs.TriggerType_members.
    repeat (apply NoDup_cons; split;
            [intros Hin; repeat (apply elem_of_cons in Hin as [Heq|Hin];
                                 [discriminate|]);
             now apply elem_of_nil in Hin|]).
    apply NoDup_nil_2.
  - reflexivity.
  - now intros [].
Qed.

(** C5: the [TriggerType] class of [lib/trigger.ts] does not carry the
    token EVENT: its job-events member is [JobEvents], with the name
    JOB_EVENTS, and that name is what a trigger of this type emits as the
    [type] of its record; the other three members carry SCHEDULED,
    ON_DEMAND and CONDITIONAL. *)
Theorem class_TriggerType_has_no_EVENT :
  (forall t : TriggerTs.TriggerType, TriggerTs.name t <> "EVENT")
  /\ TriggerTs.name TriggerTs.JobEvents = "JOB_EVENTS"
  /\ TriggerTs.name TriggerTs.Scheduled = "SCHEDULED"
  /\ TriggerTs.name TriggerTs.onDemand = "ON_DEMAND"
  /\ TriggerTs.name TriggerTs.conditional = "CONDITIONAL"
  /\ TriggerTs.name TriggerTs.JobEvents <> value ScheduledTriggerTs.EVENT
  /\ (forall props s,
        TriggerTs.TriggerProps.type props = TriggerTs.JobEvents ->
        CfnTrigger.type (TriggerTs.resourceRecord props s) = "JOB_EVENTS").
Proof.
  split; [intros []; discriminate|].
  do 4 (split; [reflexivity|]).
  split; [discriminate|].
  intros props s Htype. cbn. now rewrite Htype.
Qed.

(** The instances of the [TriggerType] class of [lib/trigger.ts] carry the
    names SCHEDULED, JOB_EVENTS, ON_DEMAND and CONDITIONAL. *)
Lemma class_TriggerType_names :
  TriggerTs.name <$>
    [TriggerTs.Scheduled; TriggerTs.JobEvents; TriggerTs.onDemand;
     TriggerTs.conditional] =
    ["SCHEDULED"; "JOB_EVENTS"; "ON_DEMAND"; "CONDITIONAL"].
Proof. reflexivity. Qed.

Lemma mergeValues_keeps_new {A} `{EqDecision A} (dest : list A) (v : A) :
  v ∈ Events.mergeValues dest [v].
Proof.
  unfold Events.mergeValues. simpl.
  destruct (decide (v ∈ dest)); [assumption|].
  apply elem_of_app. right. apply list_elem_of_here.
Qed.

(** C10: the value of [TriggerState.ACTIVATED] is [" ACTIVATED"], with a
    leading space, while the value of every other member is its name; so a
    state pattern built from that value, added to any rule, makes the rule
    match the space-prefixed token. *)
Theorem ACTIVATED_value_has_leading_space :
  value TriggerTs.ACTIVATED = " ACTIVATED"
  /\ value ScheduledTriggerTs.ACTIVATED = " ACTIVATED"
  /\ (forall s : TriggerTs.TriggerState,
        s <> TriggerTs.ACTIVATED -> value s = memberName s)
  /\ (forall s : ScheduledTriggerTs.TriggerState,
        s <> ScheduledTriggerTs.ACTIVATED -> value s = memberName s)
  /\ (forall rule : Events.Rule,
        exists states,
          Events.detail
            (Events.rulePattern
               (Events.addEventPattern
                  (TriggerEvents.statePattern (value ScheduledTriggerTs.ACTIVATED))
                  rule)) !! "state" = Some states
          /\ [Deferred.Lit " ACTIVATED"] ∈ states).
Proof.
  split; [reflexivity|]. split; [reflexivity|]. split; [|split].
  - intros [] Hs; try reflexivity. now destruct Hs.
  - intros [] Hs; try reflexivity. now destruct Hs.
  - intros rule. cbn [Events.addEventPattern Events.rulePattern
                      Events.mergeEventPattern Events.detail
                      TriggerEvents.statePattern].
    rewrite lookup_union_with, lookup_singleton_eq.
    destruct (Events.detail (Events.rulePattern rule) !! "state") as [dest|].
    + eexists. split; [reflexivity|]. apply mergeValues_keeps_new.
    + eexists. split; [reflexivity|]. apply list_elem_of_here.
Qed.

(** ** Event rules *)

(** [onSuccess] called twice with one identifier on the trigger of the
    examples: the first call declares the rule at address 4, the second
    throws. *)
Lemma onSuccess_twice_example :
  let jobName := TriggerTs.triggerName Examples.trigger in
  let first :=
    TriggerEvents.onSuccess 1 jobName "Succeeded" Events.noOptions
      Examples.declared in
  fst first = Scope.Returns 4
  /\ fst (TriggerEvents.onSuccess 1 jobName "Succeeded" Events.noOptions (snd first)) =
       Scope.Throws (Scope.DuplicateDeclarationError ["Trigger"] "Succeeded").
Proof. split; reflexivity. Qed.

(** C3 as stated fails: it is not so that a second call of [onSuccess]
    with the same identifier returns the rule of the first call. *)
Lemma onSuccess_is_not_memoized :
  ~ (forall this jobName id options (h : Scope.Heap) rule (h1 : Scope.Heap),
        TriggerEvents.onSuccess this jobName id options h = (Scope.Returns rule, h1) ->
        fst (TriggerEvents.onSuccess this jobName id options h1) = Scope.Returns rule).
Proof.
  intros Hmemo.
  assert (Hfirst :
            TriggerEvents.onSuccess 1 (TriggerTs.triggerName Examples.trigger)
              "Succeeded" Events.noOptions Examples.declared =
              (Scope.Returns 4,
               snd (TriggerEvents.onSuccess 1 (TriggerTs.triggerName Examples.trigger)
                      "Succeeded" Events.noOptions Examples.declared)))
    by reflexivity.
  apply Hmemo in Hfirst.
  rewrite (proj2 onSuccess_twice_example) in Hfirst. discriminate.
Qed.


(** * Further properties of the constructors *)

Section ConstructorOutcomes.
Import Scope Cdk.

Variables (h : Heap) (scope : nat) (c : Construct) (id : string).
Hypothesis scope_live : h !! scope = Some c.
Hypothesis id_free : children c !! id = None.

(** The tree that a construction without a schedule leaves behind. *)
Lemma Trigger_new_no_schedule_tree props :
  TriggerTs.TriggerProps.schedule props = None ->
  TriggerTs.Trigger_new scope id props h =
    (Throws (TypeError
       "Cannot read properties of undefined (reading 'expressionString')"),
     <[scope := withChild c id (length h)]> h
     ++ match TriggerTs.TriggerProps.role props with
        | Some _ =>
            [{| path := path c ++ [id];
                kind := KResource (TriggerTs.TriggerProps.triggerName props);
                children := ∅ |}]
        | None =>
            [{| path := path c ++ [id];
                kind := KResource (TriggerTs.TriggerProps.triggerName props);
                children := <["ServiceRole" := length h + 1]> ∅ |};
             {| path := (path c ++ [id]) ++ ["ServiceRole"];
                kind := KRole TriggerTs.glueServiceRole;
                children := ∅ |}]
        end).
Proof.
  intros Hs. unfold TriggerTs.Trigger_new. rewrite Hs.
  unfold Resource_new, Role_new.
  erewrite bind_returns by (apply (declareChild_fresh h scope c); assumption).
  set (base := <[scope := withChild c id (length h)]> h).
  assert (Hlen : length h = length base) by (symmetry; apply length_insert).
  destruct (TriggerTs.TriggerProps.role props) as [r|].
  - erewrite bind_returns by reflexivity. reflexivity.
  - rewrite Hlen.
    erewrite bind_returns by (apply (declareChild_middle base); reflexivity).
    unfold bind, TriggerTs.expressionStringOf, throw. simpl.
    repeat f_equal; lia.
Qed.

Lemma child_of_scope_declared (l : Heap) T :
  l !! 0 = Some T ->
  child (<[scope := withChild c id (length h)]> h ++ l) scope id =
    Some (length h, T).
Proof.
  intros HT. unfold child.
  rewrite (lookup_scope_declared h scope c id scope_live).
  cbn [mbind option_bind children withChild]. rewrite lookup_insert_eq.
  cbn [mbind option_bind].
  assert (H0 : (<[scope := withChild c id (length h)]> h ++ l) !! length h = l !! 0)
    by (rewrite <- (lookup_declared h scope c id l 0); f_equal; lia).
  rewrite H0, HT. reflexivity.
Qed.

End ConstructorOutcomes.

(** X2: a construction that throws for want of a schedule has already
    registered the trigger in its scope, and its default role when no role
    was supplied, but no resource record; the identifier stays taken, so a
    second construction under it throws [DuplicateDeclarationError] even
    with a schedule. *)
Theorem failed_construction_keeps_identifier
    (h : Scope.Heap) scope c id props props2 :
  h !! scope = Some c ->
  Scope.children c !! id = None ->
  TriggerTs.TriggerProps.schedule props = None ->
  exists (h' : Scope.Heap) node,
    TriggerTs.Trigger_new scope id props h =
      (Scope.Throws (Scope.TypeError
         "Cannot read properties of undefined (reading 'expressionString')"), h')
    /\ Scope.child h' scope id = Some (length h, node)
    /\ Scope.kind node = Scope.KResource (TriggerTs.TriggerProps.triggerName props)
    /\ Cdk.emitted h' (length h) = None
    /\ Scope.roleCount h' =
         Scope.roleCount h
         + match TriggerTs.TriggerProps.role props with
           | Some _ => 0
           | None => 1
           end
    /\ TriggerTs.Trigger_new scope id props2 h' =
         (Scope.Throws (Scope.DuplicateDeclarationError (Scope.path c) id), h').
Proof.
  intros Hc Hid Hs.
  pose proof (Trigger_new_no_schedule_tree h scope c id Hc Hid props Hs) as Hnew.
  destruct (TriggerTs.TriggerProps.role props) as [r|].
  - do 2 eexists. split; [exact Hnew|].
    split; [now apply (child_of_scope_declared h scope c id Hc)|].
    split; [reflexivity|]. split; [|split].
    + unfold Cdk.emitted.
      erewrite (child_not_declared h scope c id);
        [reflexivity | reflexivity | reflexivity].
    + rewrite (roleCount_declared h scope c id Hc). reflexivity.
    + apply (Trigger_new_duplicate _ scope (Scope.withChild c id (length h))).
      * apply (lookup_scope_declared h scope c id Hc).
      * exists (length h). apply lookup_insert_eq.
  - do 2 eexists. split; [exact Hnew|].
    split; [now apply (child_of_scope_declared h scope c id Hc)|].
    split; [reflexivity|]. split; [|split].
    + unfold Cdk.emitted.
      erewrite (child_not_declared h scope c id);
        [reflexivity | reflexivity |].
      cbn [Scope.children]. now rewrite lookup_insert_ne.
    + rewrite (roleCount_declared h scope c id Hc). reflexivity.
    + apply (Trigger_new_duplicate _ scope (Scope.withChild c id (length h))).
      * apply (lookup_scope_declared h scope c id Hc).
      * exists (length h). apply lookup_insert_eq.
Qed.

Lemma failed_construction_keeps_identifier_witness :
  Examples.emptyApp !! Examples.stack =
    Some {| Scope.path := []; Scope.kind := Scope.KStack; Scope.children := ∅ |}
  /\ (∅ : gmap string nat) !! "Trigger" = None
  /\ TriggerTs.TriggerProps.schedule Examples.defaultProps = None
  /\ exists (h' : Scope.Heap) node,
       TriggerTs.Trigger_new Examples.stack "Trigger" Examples.defaultProps
         Examples.emptyApp =
         (Scope.Throws (Scope.TypeError
            "Cannot read properties of undefined (reading 'expressionString')"), h')
       /\ Scope.child h' Examples.stack "Trigger" = Some (1, node)
       /\ Scope.kind node = Scope.KResource None
       /\ Cdk.emitted h' 1 = None
       /\ Scope.roleCount h' = 1
       /\ TriggerTs.Trigger_new Examples.stack "Trigger" Examples.scheduledProps h' =
            (Scope.Throws (Scope.DuplicateDeclarationError [] "Trigger"), h').
Proof.
  repeat (split; [reflexivity|]).
  apply (failed_construction_keeps_identifier Examples.emptyApp Examples.stack
           {| Scope.path := []; Scope.kind := Scope.KStack; Scope.children := ∅ |}
           "Trigger" Examples.defaultProps Examples.scheduledProps);
    reflexivity.
Defined.

(** X3: under an identifier that some child of the scope already has,
    whatever that child is, either constructor throws
    [DuplicateDeclarationError] and leaves the tree as it was: the check
    comes before the schedule is read and before a role is declared. *)
Theorem taken_identifier_changes_nothing
    (h : Scope.Heap) scope c id props sprops :
  h !! scope = Some c ->
  is_Some (Scope.children c !! id) ->
  TriggerTs.Trigger_new scope id props h =
    (Scope.Throws (Scope.DuplicateDeclarationError (Scope.path c) id), h)
  /\ ScheduledTriggerTs.ScheduledTrigger_new scope id sprops h =
       (Scope.Throws (Scope.DuplicateDeclarationError (Scope.path c) id), h).
Proof.
  intros Hc Hid. split.
  - now apply Trigger_new_duplicate.
  - unfold ScheduledTriggerTs.ScheduledTrigger_new, Cdk.Resource_new.
    now erewrite bind_throws by (apply (declareChild_duplicate h scope c); assumption).
Qed.

Lemma taken_identifier_changes_nothing_witness :
  Examples.declared !! 1 =
    Some {| Scope.path := ["Trigger"];
            Scope.kind := Scope.KResource (Some "test-trigger");
            Scope.children := <["Resource" := 3]> (<["ServiceRole" := 2]> ∅) |}
  /\ is_Some ((<["Resource" := 3]> (<["ServiceRole" := 2]> ∅) : gmap string nat)
              !! "ServiceRole")
  /\ TriggerTs.Trigger_new 1 "ServiceRole" Examples.defaultProps Examples.declared =
       (Scope.Throws (Scope.DuplicateDeclarationError ["Trigger"] "ServiceRole"),
        Examples.declared)
  /\ ScheduledTriggerTs.ScheduledTrigger_new 1 "ServiceRole" Examples.noonProps
       Examples.declared =
       (Scope.Throws (Scope.DuplicateDeclarationError ["Trigger"] "ServiceRole"),
        Examples.declared).
Proof.
  split; [reflexivity|]. split; [exists 2; reflexivity|].
  apply (taken_identifier_changes_nothing Examples.declared 1
           {| Scope.path := ["Trigger"];
              Scope.kind := Scope.KResource (Some "test-trigger");
              Scope.children := <["Resource" := 3]> (<["ServiceRole" := 2]> ∅) |}
           "ServiceRole" Examples.defaultProps Examples.noonProps).
  - reflexivity.
  - exists 2. reflexivity.
Defined.

(** Case analysis on a construction that returned: the trigger and the
    tree are the ones the constructor lemmas give, with or without a
    supplied role. *)
Ltac invert_Trigger_new Hnew c s Hc Hid Hs :=
  let r := fresh "r" in
  let Hrole := fresh "Hrole" in
  destruct (Trigger_new_returns_inv _ _ _ _ _ _ Hnew) as (c & s & Hc & Hid & Hs);
  match type of Hnew with
  | TriggerTs.Trigger_new ?scope ?id ?props ?h = _ =>
      destruct (TriggerTs.TriggerProps.role props) as [r|] eqn:Hrole;
      [ rewrite (Trigger_new_given_role h scope c id Hc Hid props s r Hrole Hs) in Hnew
      | rewrite (Trigger_new_default_role h scope c id Hc Hid props s Hrole Hs) in Hnew ];
      injection Hnew as <- <-
  end.

(** X4: a construction that returns makes the trigger a construct that was
    not in the tree and records it among the children of its scope under
    the identifier; the scope keeps its path, what it is and its other
    children, and every other construct of the tree is as before. *)
Theorem construction_leaves_other_constructs
    (h : Scope.Heap) scope id props t (h' : Scope.Heap) :
  TriggerTs.Trigger_new scope id props h = (Scope.Returns t, h') ->
  TriggerTs.node t = length h
  /\ (forall a, a <> scope -> a < length h -> h' !! a = h !! a)
  /\ exists c,
       h !! scope = Some c
       /\ h' !! scope =
            Some {| Scope.path := Scope.path c;
                    Scope.kind := Scope.kind c;
                    Scope.children := <[id := TriggerTs.node t]> (Scope.children c) |}.
Proof.
  intros Hnew.
  invert_Trigger_new Hnew c s Hc Hid Hs.
  - split; [reflexivity|]. split.
    + intros a Ha Hlt. rewrite lookup_app_l by (rewrite length_insert; lia).
      now apply list_lookup_insert_ne.
    + exists c. split; [exact Hc|]. apply (lookup_scope_declared h scope c id Hc).
  - split; [reflexivity|]. split.
    + intros a Ha Hlt. rewrite lookup_app_l by (rewrite length_insert; lia).
      now apply list_lookup_insert_ne.
    + exists c. split; [exact Hc|]. apply (lookup_scope_declared h scope c id Hc).
Qed.

Lemma construction_leaves_other_constructs_witness :
  TriggerTs.Trigger_new 1 "Nested" Examples.scheduledProps Examples.declared =
    (Scope.Returns
       {| TriggerTs.node := 4;
          TriggerTs.triggerArn :=
            TriggerTs.triggeerArn 4 [Deferred.Ref ["Trigger"; "Nested"; "Resource"]];
          TriggerTs.triggerName := [Deferred.Ref ["Trigger"; "Nested"; "Resource"]];
          TriggerTs.role := 5;
          TriggerTs.grantPrincipal := 5 |},
     snd (TriggerTs.Trigger_new 1 "Nested" Examples.scheduledProps Examples.declared))
  /\ (forall a, a <> 1 -> a < 4 ->
        snd (TriggerTs.Trigger_new 1 "Nested" Examples.scheduledProps
               Examples.declared) !! a = Examples.declared !! a).
Proof.
  split; [reflexivity|].
  pose proof (construction_leaves_other_constructs Examples.declared 1 "Nested"
                Examples.scheduledProps _ _ eq_refl) as (_ & Hframe & _).
  exact Hframe.
Defined.

(** X5: every field of the emitted record is the prop of the same name,
    unchanged: the predicate, the actions, the tags and the rest are passed
    through, [schedule] is the expression string of the schedule and
    [type] is the name of the trigger type; and the physical name of the
    trigger construct is the [name] of the record. *)
Theorem record_carries_props
    (h : Scope.Heap) scope id props t (h' : Scope.Heap) :
  TriggerTs.Trigger_new scope id props h = (Scope.Returns t, h') ->
  exists record resource s,
    Cdk.emitted h' (TriggerTs.node t) = Some record
    /\ h' !! TriggerTs.node t = Some resource
    /\ TriggerTs.TriggerProps.schedule props = Some s
    /\ CfnTrigger.workflowName record = TriggerTs.TriggerProps.workflowName props
    /\ CfnTrigger.tags record = TriggerTs.TriggerProps.tags props
    /\ CfnTrigger.startOnCreation record = TriggerTs.TriggerProps.startOnCreation props
    /\ CfnTrigger.schedule record = Some (Events.expressionString s)
    /\ CfnTrigger.predicate record = TriggerTs.TriggerProps.predicate props
    /\ CfnTrigger.name record = TriggerTs.TriggerProps.triggerName props
    /\ CfnTrigger.actions record = TriggerTs.TriggerProps.actions props
    /\ CfnTrigger.description record = TriggerTs.TriggerProps.description props
    /\ CfnTrigger.type record = TriggerTs.name (TriggerTs.TriggerProps.type props)
    /\ Scope.kind resource = Scope.KResource (CfnTrigger.name record).
Proof.
  intros Hnew.
  invert_Trigger_new Hnew c s Hc Hid Hs.
  - do 3 eexists. split; [|split].
    + eapply (emitted_declared h scope c id) with (k := 1);
        [reflexivity | apply lookup_insert_eq | reflexivity | reflexivity].
    + cbn [TriggerTs.node].
      rewrite <- (Nat.add_0_r (length h)) at 1.
      rewrite (lookup_declared h scope c id). reflexivity.
    + repeat split; try reflexivity. exact Hs.
  - do 3 eexists. split; [|split].
    + eapply (emitted_declared h scope c id) with (k := 2);
        [reflexivity | apply lookup_insert_eq | reflexivity | reflexivity].
    + cbn [TriggerTs.node].
      rewrite <- (Nat.add_0_r (length h)) at 1.
      rewrite (lookup_declared h scope c id). reflexivity.
    + repeat split; try reflexivity. exact Hs.
Qed.

Lemma record_carries_props_witness :
  TriggerTs.Trigger_new Examples.stack "Trigger" Examples.scheduledProps
    Examples.emptyApp = (Scope.Returns Examples.trigger, Examples.declared)
  /\ exists record resource,
       Cdk.emitted Examples.declared 1 = Some record
       /\ Examples.declared !! 1 = Some resource
       /\ CfnTrigger.name record = Some "test-trigger"
       /\ CfnTrigger.predicate record = None
       /\ CfnTrigger.type record = "SCHEDULED"
       /\ Scope.kind resource = Scope.KResource (CfnTrigger.name record).
Proof.
  split; [reflexivity|].
  destruct (record_carries_props Examples.emptyApp Examples.stack "Trigger"
              Examples.scheduledProps Examples.trigger Examples.declared eq_refl)
    as (record & resource & s & He & Hr & _ & _ & _ & _ & _ & Hp & Hn & _ & _ & Ht & Hk).
  exists record, resource. repeat split; assumption.
Defined.

(** The shape of a construction that returned: what was added to the tree
    and where the trigger and its resource are. *)
Lemma Trigger_new_shape (h : Scope.Heap) scope id props t (h' : Scope.Heap) :
  TriggerTs.Trigger_new scope id props h = (Scope.Returns t, h') ->
  exists c (l : Scope.Heap) T k C record,
    h !! scope = Some c
    /\ Scope.children c !! id = None
    /\ h' = <[scope := Scope.withChild c id (length h)]> h ++ l
    /\ TriggerTs.node t = length h
    /\ TriggerTs.triggerName t =
         [Deferred.Ref ((Scope.path c ++ [id]) ++ ["Resource"])]
    /\ TriggerTs.triggerArn t =
         TriggerTs.triggeerArn (length h) (TriggerTs.triggerName t)
    /\ l !! 0 = Some T
    /\ Scope.children T !! "Resource" = Some (length h + k)
    /\ l !! k = Some C
    /\ Scope.kind C = Scope.KCfnTrigger record.
Proof.
  intros Hnew.
  invert_Trigger_new Hnew c s Hc Hid Hs.
  - exists c. eexists. eexists. exists 1. do 2 eexists.
    repeat split; try reflexivity; try assumption;
      cbn [Scope.children]; apply lookup_insert_eq.
  - exists c. eexists. eexists. exists 2. do 2 eexists.
    repeat split; try reflexivity; try assumption;
      cbn [Scope.children]; apply lookup_insert_eq.
Qed.

(** X6: two triggers declared one after the other in the same scope have
    different identifiers, are different constructs, and have different
    names and different ARNs; declaring the second one leaves the record
    of the first one as it was. *)
Theorem successive_triggers_are_distinct
    (h : Scope.Heap) scope id1 id2 props1 props2 t1 t2 (h1 h2 : Scope.Heap) :
  TriggerTs.Trigger_new scope id1 props1 h = (Scope.Returns t1, h1) ->
  TriggerTs.Trigger_new scope id2 props2 h1 = (Scope.Returns t2, h2) ->
  id1 <> id2
  /\ TriggerTs.node t1 <> TriggerTs.node t2
  /\ TriggerTs.triggerName t1 <> TriggerTs.triggerName t2
  /\ TriggerTs.triggerArn t1 <> TriggerTs.triggerArn t2
  /\ Cdk.emitted h2 (TriggerTs.node t1) = Cdk.emitted h1 (TriggerTs.node t1).
Proof.
  intros Hnew1 Hnew2.
  destruct (Trigger_new_shape _ _ _ _ _ _ Hnew1)
    as (c & l & T & k & C & record & Hc & Hid & -> & Hnode1 & Hname1 & Harn1
        & HT & HTres & HC & HkC).
  destruct (Trigger_new_shape _ _ _ _ _ _ Hnew2)
    as (c2 & l2 & T2 & k2 & C2 & record2 & Hc2 & Hid2 & -> & Hnode2 & Hname2 & Harn2
        & _).
  rewrite (lookup_scope_declared h scope c id1 Hc) in Hc2. injection Hc2 as <-.
  cbn [Scope.children Scope.withChild Scope.path] in Hid2, Hname2.
  set (h1 := <[scope := Scope.withChild c id1 (length h)]> h ++ l) in *.
  pose proof (lookup_lt_Some _ _ _ Hc) as Hscope.
  pose proof (lookup_lt_Some _ _ _ HC) as Hk.
  assert (Hlen1 : length h1 = length h + length l)
    by (unfold h1; now rewrite length_app, length_insert).
  assert (Hne : id1 <> id2).
  { intros ->. rewrite lookup_insert_eq in Hid2. discriminate. }
  assert (Hnames : TriggerTs.triggerName t1 <> TriggerTs.triggerName t2).
  { rewrite Hname1, Hname2. intros Heq. injection Heq as Heq.
    apply app_inv_tail, app_inv_head in Heq. congruence. }
  split; [exact Hne|]. split; [|split; [exact Hnames|split]].
  - rewrite Hnode1, Hnode2. lia.
  - rewrite Harn1, Harn2. unfold TriggerTs.triggeerArn, Deferred.formatArn.
    cbn [Deferred.resourceName]. intros Heq. apply app_inv_head in Heq.
    injection Heq as Heq. contradiction.
  - assert (Hframe : forall a, a <> scope -> a < length h1 ->
                       (<[scope := Scope.withChild (Scope.withChild c id1 (length h))
                                     id2 (length h1)]> h1 ++ l2) !! a = h1 !! a).
    { intros a Ha Hlt. rewrite lookup_app_l by (rewrite length_insert; lia).
      now apply list_lookup_insert_ne. }
    assert (HT1 : h1 !! length h = Some T).
    { pose proof (lookup_declared h scope c id1 l 0) as H0.
      rewrite Nat.add_0_r in H0. unfold h1. now rewrite H0. }
    assert (HC1 : h1 !! (length h + k) = Some C)
      by (unfold h1; now rewrite (lookup_declared h scope c id1)).
    rewrite Hnode1. unfold Cdk.emitted, Scope.child.
    rewrite Hframe by lia. rewrite HT1. cbn [mbind option_bind].
    rewrite HTres. cbn [mbind option_bind].
    rewrite Hframe by lia. reflexivity.
Qed.

Lemma successive_triggers_are_distinct_witness :
  TriggerTs.Trigger_new Examples.stack "Trigger" Examples.scheduledProps
    Examples.emptyApp = (Scope.Returns Examples.trigger, Examples.declared)
  /\ exists t2 (h2 : Scope.Heap),
       TriggerTs.Trigger_new Examples.stack "Second" Examples.scheduledProps
         Examples.declared = (Scope.Returns t2, h2)
       /\ TriggerTs.triggerName Examples.trigger <> TriggerTs.triggerName t2
       /\ TriggerTs.triggerArn Examples.trigger <> TriggerTs.triggerArn t2
       /\ Cdk.emitted h2 1 = Cdk.emitted Examples.declared 1.
Proof.
  split; [reflexivity|].
  exists {| TriggerTs.node := 4;
            TriggerTs.triggerArn :=
              TriggerTs.triggeerArn 4 [Deferred.Ref ["Second"; "Resource"]];
            TriggerTs.triggerName := [Deferred.Ref ["Second"; "Resource"]];
            TriggerTs.role := 5;
            TriggerTs.grantPrincipal := 5 |},
         (snd (TriggerTs.Trigger_new Examples.stack "Second" Examples.scheduledProps
                 Examples.declared)).
  split; [reflexivity|].
  destruct (successive_triggers_are_distinct Examples.emptyApp Examples.stack
              "Trigger" "Second" Examples.scheduledProps Examples.scheduledProps
              _ _ _ _ eq_refl eq_refl)
    as (_ & _ & Hname & Harn & Hrec).
  split; [exact Hname|]. split; [exact Harn | exact Hrec].
Defined.

(** * Further properties of [ScheduledTrigger] *)

(** A [ScheduledTrigger] construction that returned was given a live scope
    and a free identifier. *)
Lemma ScheduledTrigger_new_returns_inv
    (h : Scope.Heap) scope id props t (h' : Scope.Heap) :
  ScheduledTriggerTs.ScheduledTrigger_new scope id props h = (Scope.Returns t, h') ->
  exists c, h !! scope = Some c /\ Scope.children c !! id = None.
Proof.
  intros Hnew.
  unfold ScheduledTriggerTs.ScheduledTrigger_new, Cdk.Resource_new in Hnew.
  destruct (h !! scope) as [c|] eqn:Hc.
  - exists c. split; [reflexivity|].
    destruct (Scope.children c !! id) as [a|] eqn:Hid; [|reflexivity].
    erewrite bind_throws in Hnew
      by (apply (declareChild_duplicate h scope c); eauto).
    discriminate.
  - unfold Scope.bind, Scope.declareChild in Hnew. rewrite Hc in Hnew. discriminate.
Qed.

(** X7: the constructor of [ScheduledTrigger] returns exactly when the
    scope is a construct of the tree and none of its children has the
    identifier; a missing schedule does not make it throw. *)
Theorem ScheduledTrigger_new_returns_iff (h : Scope.Heap) scope id props :
  (exists t h',
      ScheduledTriggerTs.ScheduledTrigger_new scope id props h = (Scope.Returns t, h'))
  <-> (exists c, h !! scope = Some c /\ Scope.children c !! id = None).
Proof.
  split.
  - intros (t & h' & Hnew). exact (ScheduledTrigger_new_returns_inv _ _ _ _ _ _ Hnew).
  - intros (c & Hc & Hid). do 2 eexists.
    apply (ScheduledTrigger_new_returns h scope c id Hc Hid props).
Qed.

(** X8: a [ScheduledTrigger] emits a record whose [type] is [SCHEDULED]
    and whose [predicate] is absent whatever the props; its [schedule] is
    the expression string of [props.schedule], or absent when the props
    have no schedule; the other fields are the props of the same name.  It
    declares two constructs and no role. *)
Theorem ScheduledTrigger_record (h : Scope.Heap) scope c id props :
  h !! scope = Some c ->
  Scope.children c !! id = None ->
  exists t (h' : Scope.Heap) record,
    ScheduledTriggerTs.ScheduledTrigger_new scope id props h = (Scope.Returns t, h')
    /\ Cdk.emitted h' (ScheduledTriggerTs.node t) = Some record
    /\ CfnTrigger.type record = "SCHEDULED"
    /\ CfnTrigger.predicate record = None
    /\ CfnTrigger.schedule record =
         match ScheduledTriggerTs.ScheduledTriggerProps.schedule props with
         | Some s => Some (Events.expressionString s)
         | None => None
         end
    /\ CfnTrigger.name record =
         ScheduledTriggerTs.ScheduledTriggerProps.triggerName props
    /\ CfnTrigger.actions record =
         ScheduledTriggerTs.ScheduledTriggerProps.actions props
    /\ CfnTrigger.workflowName record =
         ScheduledTriggerTs.ScheduledTriggerProps.workflowName props
    /\ CfnTrigger.description record =
         ScheduledTriggerTs.ScheduledTriggerProps.description props
    /\ CfnTrigger.tags record = ScheduledTriggerTs.ScheduledTriggerProps.tags props
    /\ CfnTrigger.startOnCreation record =
         ScheduledTriggerTs.ScheduledTriggerProps.startOnCreation props
    /\ length h' = length h + 2
    /\ Scope.roleCount h' = Scope.roleCount h.
Proof.
  intros Hc Hid. do 3 eexists.
  split; [apply (ScheduledTrigger_new_returns h scope c id Hc Hid props)|].
  split; [eapply (emitted_declared h scope c id) with (k := 1);
            [reflexivity | apply lookup_insert_eq | reflexivity | reflexivity]|].
  split; [reflexivity|]. split; [reflexivity|].
  split; [cbn; now destruct (ScheduledTriggerTs.ScheduledTriggerProps.schedule props)|].
  do 6 (split; [reflexivity|]).
  split.
  - rewrite length_app, length_insert. reflexivity.
  - rewrite (roleCount_declared h scope c id Hc). unfold Scope.roleCount. simpl. lia.
Qed.

Lemma ScheduledTrigger_record_witness :
  Examples.emptyApp !! Examples.stack =
    Some {| Scope.path := []; Scope.kind := Scope.KStack; Scope.children := ∅ |}
  /\ (∅ : gmap string nat) !! "Nightly" = None
  /\ exists t (h' : Scope.Heap) record,
       ScheduledTriggerTs.ScheduledTrigger_new Examples.stack "Nightly"
         Examples.noonProps Examples.emptyApp = (Scope.Returns t, h')
       /\ Cdk.emitted h' (ScheduledTriggerTs.node t) = Some record
       /\ CfnTrigger.type record = "SCHEDULED"
       /\ CfnTrigger.predicate record = None
       /\ CfnTrigger.schedule record = Some "cron(0 12 * * ? *)"
       /\ length h' = 3
       /\ Scope.roleCount h' = 0.
Proof.
  repeat (split; [reflexivity|]).
  destruct (ScheduledTrigger_record Examples.emptyApp Examples.stack
              {| Scope.path := []; Scope.kind := Scope.KStack; Scope.children := ∅ |}
              "Nightly" Examples.noonProps eq_refl eq_refl)
    as (t & h' & record & Hnew & He & Ht & Hp & Hs & _ & _ & _ & _ & _ & _ & Hl & Hr).
  exists t, h', record. repeat split; assumption.
Defined.

(** X9: the ARN of a [ScheduledTrigger] is the trigger template too,
    formatted from its name alone. *)
Theorem ScheduledTrigger_arn_formats_template
    (h : Scope.Heap) scope id props t (h' : Scope.Heap) :
  ScheduledTriggerTs.ScheduledTrigger_new scope id props h = (Scope.Returns t, h') ->
  exists c,
    h !! scope = Some c
    /\ ScheduledTriggerTs.triggerName t =
         [Deferred.Ref (Scope.path c ++ [id; "Resource"])]
    /\ forall env,
         Deferred.resolve env (ScheduledTriggerTs.triggerArn t) =
           "arn:" +:+ Deferred.partition env +:+ ":glue:"
           +:+ Deferred.region env +:+ ":" +:+ Deferred.account env
           +:+ ":trigger/"
           +:+ Deferred.resolve env (ScheduledTriggerTs.triggerName t).
Proof.
  intros Hnew.
  destruct (ScheduledTrigger_new_returns_inv _ _ _ _ _ _ Hnew) as (c & Hc & Hid).
  rewrite (ScheduledTrigger_new_returns h scope c id Hc Hid props) in Hnew.
  injection Hnew as <- _. exists c. split; [exact Hc|]. split.
  - cbn [ScheduledTriggerTs.triggerName]. now rewrite <- app_assoc.
  - intros env. reflexivity.
Qed.

Lemma ScheduledTrigger_arn_formats_template_witness :
  ScheduledTriggerTs.ScheduledTrigger_new Examples.stack "Nightly"
    Examples.noonProps Examples.emptyApp =
    (Scope.Returns
       {| ScheduledTriggerTs.node := 1;
          ScheduledTriggerTs.triggerArn :=
            ScheduledTriggerTs.triggeerArn 1 [Deferred.Ref ["Nightly"; "Resource"]];
          ScheduledTriggerTs.triggerName := [Deferred.Ref ["Nightly"; "Resource"]] |},
     snd (ScheduledTriggerTs.ScheduledTrigger_new Examples.stack "Nightly"
            Examples.noonProps Examples.emptyApp))
  /\ exists c,
       Examples.emptyApp !! Examples.stack = Some c
       /\ [Deferred.Ref ["Nightly"; "Resource"]] =
            [Deferred.Ref (Scope.path c ++ ["Nightly"; "Resource"])]
       /\ forall env,
            Deferred.resolve env
              (ScheduledTriggerTs.triggeerArn 1 [Deferred.Ref ["Nightly"; "Resource"]]) =
              "arn:" +:+ Deferred.partition env +:+ ":glue:"
              +:+ Deferred.region env +:+ ":" +:+ Deferred.account env
              +:+ ":trigger/"
              +:+ Deferred.resolve env [Deferred.Ref ["Nightly"; "Resource"]].
Proof.
  split; [reflexivity|].
  exact (ScheduledTrigger_arn_formats_template Examples.emptyApp Examples.stack
           "Nightly" Examples.noonProps _ _ eq_refl).
Defined.

(** X10: with a schedule, a [ScheduledTrigger] is the [Trigger] of type
    [Scheduled] without predicate that has the same other props: the two
    constructors return triggers with the same name and ARN and emit the
    same record, and the same tree when the [Trigger] is given its role.
    Without a schedule they part: [ScheduledTrigger] returns, [Trigger]
    throws. *)
Theorem ScheduledTrigger_is_a_scheduled_Trigger
    (h : Scope.Heap) scope c id props role :
  h !! scope = Some c ->
  Scope.children c !! id = None ->
  match ScheduledTriggerTs.ScheduledTriggerProps.schedule props with
  | Some _ =>
      exists ts t (h1 h2 : Scope.Heap),
        ScheduledTriggerTs.ScheduledTrigger_new scope id props h =
          (Scope.Returns ts, h1)
        /\ TriggerTs.Trigger_new scope id (Revisions.asTriggerProps props role) h =
             (Scope.Returns t, h2)
        /\ ScheduledTriggerTs.node ts = TriggerTs.node t
        /\ ScheduledTriggerTs.triggerName ts = TriggerTs.triggerName t
        /\ ScheduledTriggerTs.triggerArn ts = TriggerTs.triggerArn t
        /\ Cdk.emitted h1 (ScheduledTriggerTs.node ts) =
             Cdk.emitted h2 (TriggerTs.node t)
        /\ (is_Some role -> h1 = h2)
  | None =>
      (exists ts (h1 : Scope.Heap),
          ScheduledTriggerTs.ScheduledTrigger_new scope id props h =
            (Scope.Returns ts, h1))
      /\ fst (TriggerTs.Trigger_new scope id (Revisions.asTriggerProps props role) h) =
           Scope.Throws (Scope.TypeError
             "Cannot read properties of undefined (reading 'expressionString')")
  end.
Proof.
  intros Hc Hid.
  pose proof (ScheduledTrigger_new_returns h scope c id Hc Hid props) as Hsched.
  destruct (ScheduledTriggerTs.ScheduledTriggerProps.schedule props) as [s|] eqn:Hs.
  - assert (Hrec : ScheduledTriggerTs.resourceRecord props =
                     TriggerTs.resourceRecord (Revisions.asTriggerProps props role)
                       (Events.expressionString s)).
    { unfold ScheduledTriggerTs.resourceRecord, TriggerTs.resourceRecord. cbn.
      now rewrite Hs. }
    destruct role as [r|].
    + do 4 eexists. split; [exact Hsched|].
      split; [apply (Trigger_new_given_role h scope c id Hc Hid
                       (Revisions.asTriggerProps props (Some r)) s r eq_refl Hs)|].
      split; [reflexivity|]. split; [reflexivity|]. split; [reflexivity|].
      cbn [Revisions.asTriggerProps TriggerTs.TriggerProps.triggerName].
      rewrite Hrec. split; [reflexivity|]. intros _. reflexivity.
    + do 4 eexists. split; [exact Hsched|].
      split; [apply (Trigger_new_default_role h scope c id Hc Hid
                       (Revisions.asTriggerProps props None) s eq_refl Hs)|].
      split; [reflexivity|]. split; [reflexivity|]. split; [reflexivity|].
      split; [|intros [r Hr]; discriminate].
      cbn [ScheduledTriggerTs.node TriggerTs.node].
      erewrite (emitted_declared h scope c id) with (k := 1);
        [|reflexivity | apply lookup_insert_eq | reflexivity | reflexivity].
      erewrite (emitted_declared h scope c id) with (k := 2);
        [|reflexivity | apply lookup_insert_eq | reflexivity | reflexivity].
      now rewrite Hrec.
  - split; [eauto|].
    apply (Trigger_new_no_schedule h scope c id Hc Hid). exact Hs.
Qed.

Lemma ScheduledTrigger_is_a_scheduled_Trigger_witness :
  Examples.emptyApp !! Examples.stack =
    Some {| Scope.path := []; Scope.kind := Scope.KStack; Scope.children := ∅ |}
  /\ (∅ : gmap string nat) !! "Nightly" = None
  /\ exists ts t (h1 h2 : Scope.Heap),
       ScheduledTriggerTs.ScheduledTrigger_new Examples.stack "Nightly"
         Examples.noonProps Examples.emptyApp = (Scope.Returns ts, h1)
       /\ TriggerTs.Trigger_new Examples.stack "Nightly"
            (Revisions.asTriggerProps Examples.noonProps None) Examples.emptyApp =
            (Scope.Returns t, h2)
       /\ ScheduledTriggerTs.node ts = TriggerTs.node t
       /\ ScheduledTriggerTs.triggerName ts = TriggerTs.triggerName t
       /\ ScheduledTriggerTs.triggerArn ts = TriggerTs.triggerArn t
       /\ Cdk.emitted h1 (ScheduledTriggerTs.node ts) =
            Cdk.emitted h2 (TriggerTs.node t)
       /\ (is_Some (@None nat) -> h1 = h2).
Proof.
  repeat (split; [reflexivity|]).
  exact (ScheduledTrigger_is_a_scheduled_Trigger Examples.emptyApp Examples.stack
           {| Scope.path := []; Scope.kind := Scope.KStack; Scope.children := ∅ |}
           "Nightly" Examples.noonProps None eq_refl eq_refl).
Defined.

(** * Further properties of the event and metric layer *)

Section RuleContents.
Import Scope Cdk.

Variables (this : nat) (jobName : Deferred.t).
Variables (h : Heap) (c : Construct) (id : string).
Hypothesis this_live : h !! this = Some c.
Hypothesis id_free : children c !! id = None.

(** The rule that [onEvent] declares, spelled out. *)
Lemma onEvent_declares options :
  TriggerEvents.onEvent this jobName id options h =
    (Returns (length h),
     <[this := withChild c id (length h)]> h
     ++ [{| path := path c ++ [id];
            kind := KRule
                      (Events.addEventPattern (TriggerEvents.jobEvents jobName)
                         (Events.addTarget (Events.target options)
                            (Events.initialRule options)));
            children := ∅ |}]).
Proof.
  unfold TriggerEvents.onEvent, Rule_new.
  erewrite bind_returns by (apply (declareChild_fresh h this c); assumption).
  set (base := <[this := withChild c id (length h)]> h).
  assert (Hlen : length h = length base) by (symmetry; apply length_insert).
  rewrite Hlen.
  erewrite bind_returns by apply mutate_last.
  erewrite bind_returns by apply mutate_last.
  reflexivity.
Qed.

(** The rule that [onStateChange] declares, spelled out. *)
Lemma onStateChange_declares st options :
  TriggerEvents.onStateChange this jobName id st options h =
    (Returns (length h),
     <[this := withChild c id (length h)]> h
     ++ [{| path := path c ++ [id];
            kind :=
              KRule
                (Events.addEventPattern (TriggerEvents.statePattern (value st))
                   (Events.addEventPattern (TriggerEvents.jobEvents jobName)
                      (Events.addTarget (Events.target options)
                         (Events.initialRule
                            (TriggerEvents.withDescription
                               (TriggerEvents.stateDescription jobName (value st))
                               options)))));
            children := ∅ |}]).
Proof.
  unfold TriggerEvents.onStateChange.
  erewrite bind_returns by apply onEvent_declares.
  set (base := <[this := withChild c id (length h)]> h).
  assert (Hlen : length h = length base) by (symmetry; apply length_insert).
  rewrite Hlen.
  erewrite bind_returns by apply mutate_last.
  reflexivity.
Qed.

Lemma child_of_this_declared X :
  child (<[this := withChild c id (length h)]> h ++ [X]) this id =
    Some (length h, X).
Proof. now apply (child_of_scope_declared h this c id this_live). Qed.

End RuleContents.

(** The details that a state rule matches, when the caller gave no
    pattern: those of the job events merged with the state. *)
Lemma state_rule_detail jobName v d n tg key :
  Events.detail
    (Events.rulePattern
       (Events.addEventPattern (TriggerEvents.statePattern v)
          (Events.addEventPattern (TriggerEvents.jobEvents jobName)
             (Events.addTarget tg
                (Events.initialRule
                   (TriggerEvents.withDescription
                      (TriggerEvents.stateDescription jobName v)
                      {| Events.description := d;
                         Events.eventPattern := None;
                         Events.ruleName := n;
                         Events.target := tg |})))))) !! key =
    union_with (fun dest src => Some (Events.mergeValues dest src))
      (({["jobName" := [jobName]]} : gmap string (list Deferred.t)) !! key)
      (({["state" := [[Deferred.Lit v]]]} : gmap string (list Deferred.t)) !! key).
Proof.
  destruct tg; cbn; rewrite !lookup_union_with, lookup_empty;
    now destruct (_ !! key).
Qed.

(** C3, amended: the rule of a state metric is found or created by
    [metricJobStateRule] under a fixed identifier: the rule it returns is
    the child that the trigger has under that identifier, the one that was
    there already or else a new rule for the state asked for, and a
    repeated call returns that same rule and declares nothing more.  The
    accessors [onStateChange], [onSuccess], [onFailure] and [onTimeout]
    declare a new rule at every call, and a second call under the
    identifier of a first one throws [DuplicateDeclarationError]. *)
Theorem metric_rule_is_memoized this jobName (h : Scope.Heap) c id :
  h !! this = Some c ->
  (forall st st',
      exists rule (h1 : Scope.Heap) c1,
        TriggerEvents.metricJobStateRule this jobName id st h =
          (Scope.Returns rule, h1)
        /\ h1 !! this = Some c1
        /\ Scope.children c1 !! id = Some rule
        /\ (forall a, Scope.children c !! id = Some a -> rule = a /\ h1 = h)
        /\ (Scope.children c !! id = None ->
              exists construct r,
                h1 !! rule = Some construct
                /\ Scope.path construct = Scope.path c ++ [id]
                /\ Scope.kind construct = Scope.KRule r
                /\ Events.detail (Events.rulePattern r) !! "state" =
                     Some [[Deferred.Lit (value st)]])
        /\ TriggerEvents.metricJobStateRule this jobName id st' h1 =
             (Scope.Returns rule, h1))
  /\ (forall st st' options options' rule (h1 : Scope.Heap),
        TriggerEvents.onStateChange this jobName id st options h =
          (Scope.Returns rule, h1) ->
        TriggerEvents.onStateChange this jobName id st' options' h1 =
          (Scope.Throws (Scope.DuplicateDeclarationError (Scope.path c) id), h1))
  /\ (forall options options' rule (h1 : Scope.Heap),
        TriggerEvents.onSuccess this jobName id options h =
          (Scope.Returns rule, h1) ->
        TriggerEvents.onSuccess this jobName id options' h1 =
          (Scope.Throws (Scope.DuplicateDeclarationError (Scope.path c) id), h1))
  /\ (forall options options' rule (h1 : Scope.Heap),
        TriggerEvents.onFailure this jobName id options h =
          (Scope.Returns rule, h1) ->
        TriggerEvents.onFailure this jobName id options' h1 =
          (Scope.Throws (Scope.DuplicateDeclarationError (Scope.path c) id), h1))
  /\ (forall options options' rule (h1 : Scope.Heap),
        TriggerEvents.onTimeout this jobName id options h =
          (Scope.Returns rule, h1) ->
        TriggerEvents.onTimeout this jobName id options' h1 =
          (Scope.Throws (Scope.DuplicateDeclarationError (Scope.path c) id), h1)).
Proof.
  intros Hthis. split; [|repeat split].
  - intros st st'.
    destruct (Scope.children c !! id) as [a|] eqn:Hid.
    + exists a, h, c.
      split; [now apply (metricJobStateRule_found this jobName h c)|].
      split; [exact Hthis|]. split; [exact Hid|].
      split; [intros a' Ha'; injection Ha' as <-; now split|].
      split; [discriminate|].
      now apply (metricJobStateRule_found this jobName h c).
    + do 3 eexists.
      split; [rewrite (metricJobStateRule_missing this jobName h c id Hthis st Hid);
              apply (onStateChange_declares this jobName h c id Hthis Hid)|].
      split; [apply (lookup_scope_declared h this c id Hthis)|].
      split; [cbn [Scope.children Scope.withChild]; apply lookup_insert_eq|].
      split; [discriminate|].
      split.
      * intros _. do 2 eexists.
        split; [apply list_lookup_middle; symmetry; apply length_insert|].
        split; [reflexivity|]. split; [reflexivity|].
        etransitivity;
          [exact (state_rule_detail jobName (value st) Events.Missing None None "state")|].
        rewrite lookup_singleton_eq, lookup_singleton_ne by discriminate.
        reflexivity.
      * apply (metricJobStateRule_found this jobName _ _ _
                 (lookup_scope_declared h this c id Hthis _)).
        cbn [Scope.children Scope.withChild]. apply lookup_insert_eq.
  - intros st st' options options' rule h1.
    now apply (onStateChange_twice this jobName h c).
  - intros options options' rule h1.
    now apply (onStateChange_twice this jobName h c).
  - intros options options' rule h1.
    now apply (onStateChange_twice this jobName h c).
  - intros options options' rule h1.
    now apply (onStateChange_twice this jobName h c).
Qed.

Lemma metric_rule_is_memoized_witness :
  Examples.declared !! 1 =
    Some {| Scope.path := ["Trigger"];
            Scope.kind := Scope.KResource (Some "test-trigger");
            Scope.children := <["Resource" := 3]> (<["ServiceRole" := 2]> ∅) |}
  /\ exists rule (h1 : Scope.Heap) c1,
       TriggerEvents.metricJobStateRule 1 [Deferred.Lit "nightly-job"]
         "SuccessMetricRule" TriggerEvents.SUCCEEDED Examples.declared =
         (Scope.Returns rule, h1)
       /\ h1 !! 1 = Some c1
       /\ Scope.children c1 !! "SuccessMetricRule" = Some rule
       /\ (exists construct r,
             h1 !! rule = Some construct
             /\ Scope.path construct = ["Trigger"; "SuccessMetricRule"]
             /\ Scope.kind construct = Scope.KRule r
             /\ Events.detail (Events.rulePattern r) !! "state" =
                  Some [[Deferred.Lit "SUCCEEDED"]])
       /\ TriggerEvents.metricJobStateRule 1 [Deferred.Lit "nightly-job"]
            "SuccessMetricRule" TriggerEvents.FAILED h1 = (Scope.Returns rule, h1).
Proof.
  split; [reflexivity|].
  destruct (proj1 (metric_rule_is_memoized 1 [Deferred.Lit "nightly-job"]
                     Examples.declared
                     {| Scope.path := ["Trigger"];
                        Scope.kind := Scope.KResource (Some "test-trigger");
                        Scope.children :=
                          <["Resource" := 3]> (<["ServiceRole" := 2]> ∅) |}
                     "SuccessMetricRule" eq_refl)
              TriggerEvents.SUCCEEDED TriggerEvents.FAILED)
    as (rule & h1 & c1 & Hcall & Hthis & Hchild & _ & Hnew & Hagain).
  exists rule, h1, c1.
  split; [exact Hcall|]. split; [exact Hthis|]. split; [exact Hchild|].
  split; [exact (Hnew eq_refl) | exact Hagain].
Defined.

(** X11: under a free identifier and without a caller's pattern,
    [onStateChange] declares a rule that is the child of the trigger under
    that identifier.  The rule matches the source [aws.glue], the two Glue
    detail types, the job name and the one state asked for, and no other
    detail; its only target is the caller's, if any.  Its description is
    the own [description] of the options, which may be [undefined] and
    then leaves the rule without one; only when the options have no such
    key does the description say the job and the state. *)
Theorem onStateChange_rule
    this jobName (h : Scope.Heap) c id st options :
  h !! this = Some c ->
  Scope.children c !! id = None ->
  Events.eventPattern options = None ->
  exists reference rule (h1 : Scope.Heap) construct,
    TriggerEvents.onStateChange this jobName id st options h =
      (Scope.Returns reference, h1)
    /\ Scope.child h1 this id = Some (reference, construct)
    /\ Scope.path construct = Scope.path c ++ [id]
    /\ Scope.kind construct = Scope.KRule rule
    /\ Events.ruleDescription rule =
         match Events.description options with
         | Events.Own v => v
         | Events.Missing =>
             Some ([Deferred.Lit "Rule triggered when Glue job "] ++ jobName
                   ++ [Deferred.Lit " is in "; Deferred.Lit (value st);
                       Deferred.Lit " state"])
         end
    /\ Events.rulePhysicalName rule = Events.ruleName options
    /\ Events.ruleTargets rule =
         match Events.target options with
         | Some x => [x]
         | None => []
         end
    /\ Events.source (Events.rulePattern rule) = ["aws.glue"]
    /\ Events.detailType (Events.rulePattern rule) =
         ["Glue Job State Change"; "Glue Job Run Status"]
    /\ Events.detail (Events.rulePattern rule) !! "jobName" = Some [jobName]
    /\ Events.detail (Events.rulePattern rule) !! "state" =
         Some [[Deferred.Lit (value st)]]
    /\ (forall key, key <> "jobName" -> key <> "state" ->
          Events.detail (Events.rulePattern rule) !! key = None).
Proof.
  intros Hthis Hid Hpattern. do 4 eexists.
  split; [apply (onStateChange_declares this jobName h c id Hthis Hid)|].
  split; [apply (child_of_this_declared this h c id Hthis)|].
  split; [reflexivity|]. split; [reflexivity|].
  destruct options as [d p n tg]. cbn in Hpattern. subst p.
  split; [cbn; now destruct d, tg|].
  split; [cbn; now destruct tg|].
  split; [cbn; now destruct tg|].
  split; [cbn; now destruct tg|].
  split; [cbn; now destruct tg|].
  pose proof (state_rule_detail jobName (value st) d n tg) as Hdetail.
  split; [|split].
  - rewrite Hdetail, lookup_singleton_eq, lookup_singleton_ne by discriminate.
    reflexivity.
  - rewrite Hdetail, lookup_singleton_eq, lookup_singleton_ne by discriminate.
    reflexivity.
  - intros key Hj Hs.
    rewrite Hdetail, !lookup_singleton_ne by congruence. reflexivity.
Qed.

Lemma onStateChange_rule_witness :
  Examples.declared !! 1 =
    Some {| Scope.path := ["Trigger"];
            Scope.kind := Scope.KResource (Some "test-trigger");
            Scope.children := <["Resource" := 3]> (<["ServiceRole" := 2]> ∅) |}
  /\ (<["Resource" := 3]> (<["ServiceRole" := 2]> ∅) : gmap string nat)
       !! "Failed" = None
  /\ Events.eventPattern
       {| Events.description := Events.Own None;
          Events.eventPattern := None;
          Events.ruleName := None;
          Events.target := None |} = None
  /\ exists reference rule (h1 : Scope.Heap) construct,
       TriggerEvents.onFailure 1 [Deferred.Lit "nightly-job"] "Failed"
         {| Events.description := Events.Own None;
            Events.eventPattern := None;
            Events.ruleName := None;
            Events.target := None |} Examples.declared =
         (Scope.Returns reference, h1)
       /\ Scope.child h1 1 "Failed" = Some (reference, construct)
       /\ Scope.path construct = ["Trigger"; "Failed"]
       /\ Scope.kind construct = Scope.KRule rule
       /\ Events.ruleDescription rule = None
       /\ Events.ruleTargets rule = []
       /\ Events.detail (Events.rulePattern rule) !! "jobName" =
            Some [[Deferred.Lit "nightly-job"]]
       /\ Events.detail (Events.rulePattern rule) !! "state" =
            Some [[Deferred.Lit "FAILED"]].
Proof.
  repeat (split; [reflexivity|]).
  destruct (onStateChange_rule 1 [Deferred.Lit "nightly-job"]
              Examples.declared
              {| Scope.path := ["Trigger"];
                 Scope.kind := Scope.KResource (Some "test-trigger");
                 Scope.children := <["Resource" := 3]> (<["ServiceRole" := 2]> ∅) |}
              "Failed" TriggerEvents.FAILED
              {| Events.description := Events.Own None;
                 Events.eventPattern := None;
                 Events.ruleName := None;
                 Events.target := None |} eq_refl eq_refl eq_refl)
    as (reference & rule & h1 & construct & Hcall & Hchild & Hpath & Hkind
        & Hdescription & _ & Htargets & _ & _ & Hjob & Hstate & _).
  exists reference, rule, h1, construct. repeat split; assumption.
Defined.

(** X12: [onEvent] itself declares a rule that is not tied to a state: it
    matches the source, the detail types and the job name, and has no
    [state] detail; its description is the caller's, and absent if the
    caller gave none. *)
Theorem onEvent_rule this jobName (h : Scope.Heap) c id options :
  h !! this = Some c ->
  Scope.children c !! id = None ->
  Events.eventPattern options = None ->
  exists rule (h1 : Scope.Heap),
    TriggerEvents.onEvent this jobName id options h = (Scope.Returns (length h), h1)
    /\ Scope.child h1 this id =
         Some (length h,
               {| Scope.path := Scope.path c ++ [id];
                  Scope.kind := Scope.KRule rule;
                  Scope.children := ∅ |})
    /\ Events.ruleDescription rule = Events.read (Events.description options)
    /\ Events.source (Events.rulePattern rule) = ["aws.glue"]
    /\ Events.detailType (Events.rulePattern rule) =
         ["Glue Job State Change"; "Glue Job Run Status"]
    /\ Events.detail (Events.rulePattern rule) !! "jobName" = Some [jobName]
    /\ (forall key, key <> "jobName" ->
          Events.detail (Events.rulePattern rule) !! key = None).
Proof.
  intros Hthis Hid Hpattern. do 2 eexists.
  split; [apply (onEvent_declares this jobName h c id Hthis Hid)|].
  split; [apply (child_of_this_declared this h c id Hthis)|].
  destruct options as [d p n tg]. cbn in Hpattern. subst p.
  split; [cbn; now destruct tg|].
  split; [cbn; now destruct tg|].
  split; [cbn; now destruct tg|].
  split.
  - destruct tg; cbn; rewrite lookup_union_with, lookup_empty, lookup_singleton_eq;
      reflexivity.
  - intros key Hkey.
    destruct tg; cbn;
      rewrite lookup_union_with, lookup_empty, lookup_singleton_ne by congruence;
      reflexivity.
Qed.

Lemma onEvent_rule_witness :
  Examples.declared !! 1 =
    Some {| Scope.path := ["Trigger"];
            Scope.kind := Scope.KResource (Some "test-trigger");
            Scope.children := <["Resource" := 3]> (<["ServiceRole" := 2]> ∅) |}
  /\ (<["Resource" := 3]> (<["ServiceRole" := 2]> ∅) : gmap string nat)
       !! "Any" = None
  /\ Events.eventPattern Events.noOptions = None
  /\ exists rule (h1 : Scope.Heap),
       TriggerEvents.onEvent 1 (TriggerTs.triggerName Examples.trigger) "Any"
         Events.noOptions Examples.declared = (Scope.Returns 4, h1)
       /\ Events.ruleDescription rule = None
       /\ Events.detail (Events.rulePattern rule) !! "state" = None.
Proof.
  repeat (split; [reflexivity|]).
  destruct (onEvent_rule 1 (TriggerTs.triggerName Examples.trigger)
              Examples.declared
              {| Scope.path := ["Trigger"];
                 Scope.kind := Scope.KResource (Some "test-trigger");
                 Scope.children := <["Resource" := 3]> (<["ServiceRole" := 2]> ∅) |}
              "Any" Events.noOptions eq_refl eq_refl eq_refl)
    as (rule & h1 & Hcall & _ & Hdescription & _ & _ & _ & Hother).
  exists rule, h1. repeat split; try assumption.
  apply Hother. discriminate.
Defined.



(** X14: [metricSuccess], [metricFailure] and [metricTimeout] never return
    a metric: the function [metricRule] that they call is not defined, so
    each of them throws a [ReferenceError] before it looks up or declares
    a rule, and leaves the tree as it was. *)
Theorem state_metrics_throw_ReferenceError
    this jobName (Metric MetricOptions : Type) props (h : Scope.Heap) :
  TriggerEvents.metricSuccess this jobName Metric MetricOptions props h =
    (Scope.Throws (Scope.ReferenceError "metricRule is not defined"), h)
  /\ TriggerEvents.metricFailure this jobName Metric MetricOptions props h =
       (Scope.Throws (Scope.ReferenceError "metricRule is not defined"), h)
  /\ TriggerEvents.metricTimeout this jobName Metric MetricOptions props h =
       (Scope.Throws (Scope.ReferenceError "metricRule is not defined"), h).
Proof. repeat split. Qed.

(** * The enumerations, further *)

(** X15: in every enumeration of the trigger files different members have
    different string values (the names of the [TriggerType] class
    included), so a value read back from a template or an event tells the
    member; the space in front of ACTIVATED does not make it meet another
    value. *)
Theorem enumeration_values_are_distinct :
  (forall a b : TriggerTs.TriggerType, TriggerTs.name a = TriggerTs.name b -> a = b)
  /\ (forall a b : TriggerTs.TriggerState, value a = value b -> a = b)
  /\ (forall a b : ScheduledTriggerTs.TriggerType, value a = value b -> a = b)
  /\ (forall a b : ScheduledTriggerTs.TriggerState, value a = value b -> a = b)
  /\ (forall a b : TriggerEvents.triggerState, value a = value b -> a = b).
Proof.
  repeat split; intros [] []; cbn; intros Heq;
    first [reflexivity | discriminate Heq].
Qed.
